(** * Safe arithmetic evaluator of [flask_calculator_app.py]

    A shallow embedding of [ALLOWED_OPERATORS], [safe_eval] (with its inner
    [_eval]) and the [/eval] view function [evaluate], together with the
    properties of the evaluator stated in the specification, and of the
    view function [calculate] of [caculator.py] and the keypad script of
    the page.

    Conventions of the embedding:
    - a Python [str] is a list of Unicode code points;
    - a Python [int] is a [Z]; a Python [float] is an IEEE 754 binary64 number
      ([spec_float] at precision 53, the executable specification of the
      Standard Library); a Python [complex] is a pair of floats;
    - an exception is a value [Raises e]; every function that can raise
      returns a [result];
    - the module-level dictionary [ALLOWED_OPERATORS] lives in an explicit
      store that every evaluation receives and hands back;
    - what the program takes from the interpreter and does not define
      ([ast.parse], the C library's [fmod], float power, complex arithmetic,
      the Unicode digit table, the limit on the length of printed integers)
      is an interface, [Runtime]; the theorems hold for every instance and
      the examples are run on the instance [Reference.runtime];
    - what the program takes from the web framework,
      [request.get_json()], is an interface too, [Framework]: [evaluate] and
      [calculate] are the two view functions from the value it returned,
      [route_eval] and [route_calculate] are the same from the request,
      with the call where the source has it; the examples are run on the
      instance [Werkzeug.framework], which follows Flask 2.1 and later;
    - where a property is about the way an expression is written
      (precedence, associativity, parentheses), it is proved of the parser
      of the reference instance, for every expression of the shape at hand.
    Messages of the interpreter's own exceptions are those of CPython 3.9.
    Time, memory and the interpreter's recursion limit are not modelled:
    trees are finite and [_eval] recurses on them structurally. *)

From Stdlib Require Import ZArith NArith List String Ascii Bool Lia.
From Stdlib Require Import QArith Qround Qpower Qabs.
From Stdlib Require Import Floats.SpecFloat.
Import ListNotations.

Local Open Scope Z_scope.

(** ** Strings *)

Definition char := N.
Definition pystr := list char.

(** A literal of the source, written as a Rocq string of ASCII characters. *)
Definition lit (s : string) : pystr :=
  List.map N_of_ascii (list_ascii_of_string s).

(** [×] is U+00D7 and [÷] is U+00F7. *)
Definition times_sign : char := 215%N.
Definition division_sign : char := 247%N.

Module Str.

(** [s.replace(old, new)] and [s.replace(old, new, count)] for a pattern
    [old] of one character, which is what every call of the program
    passes.  [count = None] replaces every occurrence. *)
Fixpoint replace (s : pystr) (old : char) (new : pystr) (count : option nat)
  : pystr :=
  match s with
  | [] => []
  | c :: rest =>
      match count with
      | Some O => s
      | _ =>
          if N.eqb c old
          then new ++ replace rest old new (option_map Nat.pred count)
          else c :: replace rest old new count
      end
  end.

(** [Py_UNICODE_ISSPACE]: the characters [str.strip()] removes. *)
Definition isspace (c : char) : bool :=
  ((9 <=? c) && (c <=? 13) || (28 <=? c) && (c <=? 32)
   || (c =? 133) || (c =? 160) || (c =? 5760)
   || (8192 <=? c) && (c <=? 8202)
   || (c =? 8232) || (c =? 8233) || (c =? 8239) || (c =? 8287)
   || (c =? 12288))%N.

Fixpoint lstrip (s : pystr) : pystr :=
  match s with
  | c :: rest => if isspace c then lstrip rest else s
  | [] => []
  end.

Definition rstrip (s : pystr) : pystr := rev (lstrip (rev s)).

Definition strip (s : pystr) : pystr := rstrip (lstrip s).

Fixpoint startswith (s prefix : pystr) : bool :=
  match prefix, s with
  | [], _ => true
  | p :: prefix', c :: s' => N.eqb p c && startswith s' prefix'
  | _ :: _, [] => false
  end.

Definition endswith (s suffix : pystr) : bool :=
  startswith (rev s) (rev suffix).

(** [s[:-1]] *)
Definition but_last (s : pystr) : pystr := removelast s.

(** The digits among the first 256 code points: [0]-[9] and the
    superscripts [²], [³], [¹]. *)
Definition isdigit_latin1 (c : char) : bool :=
  ((48 <=? c) && (c <=? 57) || (c =? 178) || (c =? 179) || (c =? 185))%N.

Section IsDigit.
(** The digit property of the code points from 256 on, from the
    interpreter's Unicode database. *)
Variable unicode_isdigit : char -> bool.

Definition isdigit_char (c : char) : bool :=
  if (c <? 256)%N then isdigit_latin1 c else unicode_isdigit c.

(** [s.isdigit()]: at least one character, and all of them digits. *)
Definition isdigit (s : pystr) : bool :=
  match s with
  | [] => false
  | _ => forallb isdigit_char s
  end.
End IsDigit.

End Str.

(** ** Exceptions and results *)

Inductive exn_class :=
| SyntaxError | ValueError | ZeroDivisionError | OverflowError | TypeError
| AttributeError | KeyError | RecursionError | MemoryError
| BadRequest | UnsupportedMediaType.

(** An exception object: its class and [str(e)].  Every class above derives
    from [Exception]; the last two are the framework's, subclasses of its
    [HTTPException], and no class above is a subclass of another. *)
Record exn := Exn { exn_class_of : exn_class; str : pystr }.

Inductive result (A : Type) :=
| Returns (a : A)
| Raises (e : exn).
Arguments Returns {A} a.
Arguments Raises {A} e.

(** ** Numbers *)

Definition float := spec_float.
Definition prec : Z := 53.
Definition emax : Z := 1024.

Inductive value :=
| VInt (i : Z)
| VFloat (x : float)
| VComplex (re im : float).

Definition is_int_or_float (v : value) : bool :=
  match v with VInt _ | VFloat _ => true | VComplex _ _ => false end.

Definition fzero : float := S754_zero false.

Definition float_is_zero (x : float) : bool :=
  match x with S754_zero _ => true | _ => false end.

(** [PyLong_AsDouble]: round to nearest even, [OverflowError] beyond the
    largest double. *)
Definition float_of_int (i : Z) : result float :=
  match binary_normalize prec emax i 0 false with
  | S754_infinity _ =>
      Raises (Exn OverflowError (lit "int too large to convert to float"))
  | x => Returns x
  end.

(** [CONVERT_TO_DOUBLE] of floatobject.c, for an [int] or a [float]. *)
Definition convert_to_double (v : value) : result float :=
  match v with
  | VInt i => float_of_int i
  | VFloat x => Returns x
  | VComplex _ _ =>
      Raises (Exn TypeError (lit "can't convert complex to float"))
  end.

Definition to_complex (v : value) : result (float * float) :=
  match v with
  | VInt i =>
      match float_of_int i with
      | Returns x => Returns (x, fzero)
      | Raises e => Raises e
      end
  | VFloat x => Returns (x, fzero)
  | VComplex re im => Returns (re, im)
  end.

Definition is_complex (v : value) : bool :=
  match v with VComplex _ _ => true | _ => false end.

(** [int / int]: the correctly rounded quotient ([long_true_divide]). *)
Definition int_true_divide (a b : Z) : result value :=
  if b =? 0 then Raises (Exn ZeroDivisionError (lit "division by zero"))
  else
    let q :=
      if a =? 0 then S754_zero (b <? 0)
      else
        let '(mz, ez, lz) :=
          SFdiv_core_binary prec emax (Z.abs a) 0 (Z.abs b) 0 in
        binary_round_aux prec emax (xorb (a <? 0) (b <? 0)) mz ez lz in
    match q with
    | S754_infinity _ =>
        Raises (Exn OverflowError
                  (lit "integer division result too large for a float"))
    | x => Returns (VFloat x)
    end.

(** Binding for [result]: the first exception aborts what follows. *)
Definition rbind {A B} (r : result A) (k : A -> result B) : result B :=
  match r with
  | Returns a => k a
  | Raises e => Raises e
  end.

Notation "x <-? r ; k" := (rbind r (fun x => k))
  (at level 61, r at next level, right associativity).

(** ** Syntax trees of the [ast] module *)

(** The operator classes of [ast]: the thirteen binary ones, then the four
    unary ones. *)
Inductive op_type :=
| Add | Sub | Mult | MatMult | Div | Mod | Pow
| LShift | RShift | BitOr | BitXor | BitAnd | FloorDiv
| Invert | Not | UAdd | USub.

Scheme Equality for op_type.

Definition op_name (o : op_type) : string :=
  match o with
  | Add => "Add" | Sub => "Sub" | Mult => "Mult" | MatMult => "MatMult"
  | Div => "Div" | Mod => "Mod" | Pow => "Pow"
  | LShift => "LShift" | RShift => "RShift" | BitOr => "BitOr"
  | BitXor => "BitXor" | BitAnd => "BitAnd" | FloorDiv => "FloorDiv"
  | Invert => "Invert" | Not => "Not" | UAdd => "UAdd" | USub => "USub"
  end.

(** [Num n] is a constant node that [isinstance(node, ast.Num)] accepts: its
    value is an [int], a [float] or a [complex].  [Other cls fields] is a node
    of any other class ([Name], [Call], [Compare], a string constant, ...),
    with the qualified name of its class and its child nodes. *)
#[warnings="-register-all"]
Inductive node :=
| Num (n : value)
| Expression (body : node)
| BinOp (left : node) (op : op_type) (right : node)
| UnaryOp (op : op_type) (operand : node)
| Other (cls : pystr) (fields : list node).

(** [str(type(x))] for a class of qualified name [qualname]. *)
Definition repr_class (qualname : pystr) : pystr :=
  lit "<class '" ++ qualname ++ lit "'>".

Definition repr_op_type (o : op_type) : pystr :=
  repr_class (lit "ast." ++ lit (op_name o)).

(** ** What the interpreter provides *)

Class Runtime := {
  (** [ast.parse(expr, mode='eval')] *)
  ast_parse : pystr -> result node;
  (** [fmod] of the C library *)
  libm_fmod : float -> float -> float;
  (** [float.__pow__] on two doubles; its result can be complex *)
  float_pow : float -> float -> result value;
  (** [+], [-], [*], [/] and [**] of complexobject.c *)
  complex_arith : op_type -> float * float -> float * float -> result value;
  (** the digit property of the code points from 256 on *)
  unicode_isdigit : char -> bool;
  (** [sys.get_int_max_str_digits()]: the longest [int], in digits, that the
      interpreter writes in decimal; 0 when it has no such limit, and never
      set below 640 otherwise *)
  int_max_str_digits : Z;
  (** the exception it raises for a longer one *)
  int_too_long : exn
}.

(** ** The functions of the [operator] module *)

Module op.
Section Operator.
Context {rt : Runtime}.

Definition float_binop (f : float -> float -> result value) (a b : value)
  : result value :=
  x <-? convert_to_double a ; y <-? convert_to_double b ; f x y.

Definition complex_binop (o : op_type) (a b : value) : result value :=
  x <-? to_complex a ; y <-? to_complex b ; complex_arith o x y.

Definition either_complex (a b : value) : bool :=
  is_complex a || is_complex b.

Definition add (a b : value) : result value :=
  match a, b with
  | VInt x, VInt y => Returns (VInt (x + y))
  | _, _ =>
      if either_complex a b then complex_binop Add a b
      else float_binop (fun x y => Returns (VFloat (SFadd prec emax x y))) a b
  end.

Definition sub (a b : value) : result value :=
  match a, b with
  | VInt x, VInt y => Returns (VInt (x - y))
  | _, _ =>
      if either_complex a b then complex_binop Sub a b
      else float_binop (fun x y => Returns (VFloat (SFsub prec emax x y))) a b
  end.

Definition mul (a b : value) : result value :=
  match a, b with
  | VInt x, VInt y => Returns (VInt (x * y))
  | _, _ =>
      if either_complex a b then complex_binop Mult a b
      else float_binop (fun x y => Returns (VFloat (SFmul prec emax x y))) a b
  end.

(** [float_div] *)
Definition float_div (x y : float) : result value :=
  if float_is_zero y
  then Raises (Exn ZeroDivisionError (lit "float division by zero"))
  else Returns (VFloat (SFdiv prec emax x y)).

Definition truediv (a b : value) : result value :=
  match a, b with
  | VInt x, VInt y => int_true_divide x y
  | _, _ =>
      if either_complex a b then complex_binop Div a b
      else float_binop float_div a b
  end.

Definition float_sign (x : float) : bool :=
  match x with
  | S754_zero s | S754_infinity s | S754_finite s _ _ => s
  | S754_nan => false
  end.

(** [float_rem]: the remainder takes the sign of the divisor. *)
Definition float_rem (vx wx : float) : result value :=
  if float_is_zero wx
  then Raises (Exn ZeroDivisionError (lit "float modulo"))
  else
    let m := libm_fmod vx wx in
    if negb (float_is_zero m)
    then
      if xorb (SFltb wx fzero) (SFltb m fzero)
      then Returns (VFloat (SFadd prec emax m wx))
      else Returns (VFloat m)
    else Returns (VFloat (S754_zero (float_sign wx))).

Definition mod_ (a b : value) : result value :=
  match a, b with
  | VInt x, VInt y =>
      if y =? 0
      then Raises (Exn ZeroDivisionError
                     (lit "integer division or modulo by zero"))
      else Returns (VInt (x mod y))
  | _, _ =>
      if either_complex a b
      then Raises (Exn TypeError (lit "can't mod complex numbers."))
      else float_binop float_rem a b
  end.

Definition pow (a b : value) : result value :=
  match a, b with
  | VInt x, VInt y =>
      if y <? 0 then float_binop float_pow a b
      else Returns (VInt (x ^ y))
  | _, _ =>
      if either_complex a b then complex_binop Pow a b
      else float_binop float_pow a b
  end.

Definition neg (a : value) : result value :=
  match a with
  | VInt x => Returns (VInt (- x))
  | VFloat x => Returns (VFloat (SFopp x))
  | VComplex re im => Returns (VComplex (SFopp re) (SFopp im))
  end.

Definition pos (a : value) : result value := Returns a.

End Operator.
End op.

(** ** The module's store and the evaluation monad *)

(** A Python callable of the [operator] module, by its number of
    parameters. *)
Inductive callable :=
| Fn1 (f : value -> result value)
| Fn2 (f : value -> value -> result value).

(** The call of [f] on the arguments [args]; a call with the wrong number
    of arguments is a [TypeError]. *)
Definition call (f : callable) (args : list value) : result value :=
  match f, args with
  | Fn1 f, [a] => f a
  | Fn2 f, [a; b] => f a b
  | _, _ => Raises (Exn TypeError (lit "wrong number of arguments"))
  end.

Definition dict := list (op_type * callable).

Fixpoint dict_contains (d : dict) (k : op_type) : bool :=
  match d with
  | [] => false
  | (k', _) :: d' => op_type_beq k k' || dict_contains d' k
  end.

(** [d[k]] *)
Fixpoint dict_getitem (d : dict) (k : op_type) : result callable :=
  match d with
  | [] => Raises (Exn KeyError (repr_op_type k))
  | (k', f) :: d' => if op_type_beq k k' then Returns f else dict_getitem d' k
  end.

Record globals := { ALLOWED_OPERATORS : dict }.

(** A computation reads the store, returns or raises, and leaves a store. *)
Definition M (A : Type) : Type := globals -> result A * globals.

Definition ret {A} (a : A) : M A := fun g => (Returns a, g).
Definition raise {A} (e : exn) : M A := fun g => (Raises e, g).
Definition lift {A} (r : result A) : M A := fun g => (r, g).
Definition load_global : M globals := fun g => (Returns g, g).

Definition bind {A B} (m : M A) (k : A -> M B) : M B :=
  fun g =>
    match m g with
    | (Returns a, g') => k a g'
    | (Raises e, g') => (Raises e, g')
    end.

(** [try: m  except Exception as e: handler e] *)
Definition try_except {A} (m : M A) (handler : exn -> M A) : M A :=
  fun g =>
    match m g with
    | (Returns a, g') => (Returns a, g')
    | (Raises e, g') => handler e g'
    end.

Notation "x <- m ;; k" := (bind m (fun x => k))
  (at level 61, m at next level, right associativity).

Section Evaluator.
Context {rt : Runtime}.

(** The store after the module has been imported. *)
Definition module_globals : globals :=
  {| ALLOWED_OPERATORS :=
      [ (Add, Fn2 op.add); (Sub, Fn2 op.sub); (Mult, Fn2 op.mul);
        (Div, Fn2 op.truediv); (Pow, Fn2 op.pow); (Mod, Fn2 op.mod_);
        (USub, Fn1 op.neg); (UAdd, Fn1 op.pos) ] |}.

Definition operator_not_allowed (o : op_type) : exn :=
  Exn ValueError (lit "Operator " ++ repr_op_type o ++ lit " not allowed").

Definition unary_operator_not_allowed (o : op_type) : exn :=
  Exn ValueError
    (lit "Unary operator " ++ repr_op_type o ++ lit " not allowed").

Definition unsupported_expression (cls : pystr) : exn :=
  Exn ValueError (lit "Unsupported expression: " ++ repr_class cls).

Fixpoint _eval (n : node) : M value :=
  match n with
  | Num v => ret v
  | Expression body => _eval body
  | BinOp l o r =>
      left <- _eval l ;;
      right <- _eval r ;;
      g <- load_global ;;
      if dict_contains (ALLOWED_OPERATORS g) o
      then
        f <- lift (dict_getitem (ALLOWED_OPERATORS g) o) ;;
        lift (call f [left; right])
      else raise (operator_not_allowed o)
  | UnaryOp o x =>
      operand <- _eval x ;;
      g <- load_global ;;
      if dict_contains (ALLOWED_OPERATORS g) o
      then
        f <- lift (dict_getitem (ALLOWED_OPERATORS g) o) ;;
        lift (call f [operand])
      else raise (unary_operator_not_allowed o)
  | Other cls _ => raise (unsupported_expression cls)
  end.

Definition safe_eval (expr : pystr) : M value :=
  parsed <- lift (ast_parse expr) ;;
  _eval parsed.

(** ** The [/eval] view function *)

(** What [request.get_json()] returns; [JNull] is [None], and a dictionary
    is the list of its items. *)
#[warnings="-register-all"]
Inductive json :=
| JNull
| JBool (b : bool)
| JInt (i : Z)
| JFloat (x : float)
| JStr (s : pystr)
| JList (items : list json)
| JDict (items : list (pystr * json)).

Definition truthy (j : json) : bool :=
  match j with
  | JNull => false
  | JBool b => b
  | JInt i => negb (i =? 0)
  | JFloat x => negb (float_is_zero x)
  | JStr s => match s with [] => false | _ => true end
  | JList l => match l with [] => false | _ => true end
  | JDict d => match d with [] => false | _ => true end
  end.

Definition type_name (j : json) : string :=
  match j with
  | JNull => "NoneType" | JBool _ => "bool" | JInt _ => "int"
  | JFloat _ => "float" | JStr _ => "str" | JList _ => "list"
  | JDict _ => "dict"
  end.

Definition no_attribute (j : json) (attr : string) : exn :=
  Exn AttributeError
    (lit "'" ++ lit (type_name j) ++ lit "' object has no attribute '"
     ++ lit attr ++ lit "'").

Definition pystr_eqb (a b : pystr) : bool :=
  if list_eq_dec N.eq_dec a b then true else false.

Fixpoint lookup (items : list (pystr * json)) (key : pystr) : option json :=
  match items with
  | [] => None
  | (k, v) :: rest => if pystr_eqb k key then Some v else lookup rest key
  end.

(** [data.get(key, default)] *)
Definition get (data : json) (key : pystr) (default : json) : result json :=
  match data with
  | JDict items =>
      match lookup items key with
      | Some v => Returns v
      | None => Returns default
      end
  | _ => Raises (no_attribute data "get")
  end.

(** The two [replace] calls and the percent rewriting: the value of
    [cleaned] when [safe_eval] is called. *)
Definition clean (expr : pystr) : pystr :=
  let cleaned :=
    Str.replace (Str.replace expr times_sign (lit "*") None)
                division_sign (lit "/") None in
  if Str.endswith cleaned (lit "%")
     && Str.isdigit unicode_isdigit
          (Str.replace (Str.strip (Str.but_last cleaned)) 46%N [] (Some 1%nat))
  then lit "(" ++ Str.but_last cleaned ++ lit ")/100"
  else cleaned.

(** The JSON body of a response. *)
Inductive response :=
| Success (result : value) (input : pystr)
| Failure (error : pystr).

(** Writing an [int] in decimal: the exception raised, if any. *)
Definition int_repr_error (i : Z) : option exn :=
  if (0 <? int_max_str_digits)
     && (10 ^ Z.max int_max_str_digits 640 <=? Z.abs i)
  then Some int_too_long
  else None.

(** [jsonify(ok=True, result=result, input=expr)]: a complex number has no
    JSON form, and an [int] is written in decimal. *)
Definition jsonify_success (r : value) (input : pystr) : result response :=
  match r with
  | VComplex _ _ =>
      Raises (Exn TypeError
                (lit "Object of type complex is not JSON serializable"))
  | VInt i =>
      match int_repr_error i with
      | Some e => Raises e
      | None => Returns (Success r input)
      end
  | VFloat _ => Returns (Success r input)
  end.

(** The view function, given what [request.get_json()] returned.  The
    lookup of ["expr"] is outside the [try] block; the rest is inside.
    [route_eval], below, is the view function from the request. *)
Definition evaluate (request_json : json) : M response :=
  let data := if truthy request_json then request_json else JDict [] in
  expr <- lift (get data (lit "expr") (JStr [])) ;;
  try_except
    (match expr with
     | JStr s =>
         r <- safe_eval (clean s) ;;
         lift (jsonify_success r s)
     | _ => raise (no_attribute expr "replace")
     end)
    (fun e => ret (Failure (str e))).

End Evaluator.

(** ** The request and the framework *)

(** What the view functions read of a request: the media type of its
    [Content-Type] header, empty when there is none, and the bytes of its
    body, empty when it has none. *)
Record http_request := { mimetype : pystr; get_data : pystr }.

(** What the program takes from the web framework: [request.get_json()],
    which returns the decoded body or raises. *)
Class Framework := {
  get_json : http_request -> result json
}.

Section Routes.
Context {rt : Runtime} {fw : Framework}.

(** The view function [evaluate] from its first line, as the framework
    calls it for a request on [/eval]: [request.get_json()] is called
    outside the [try] block, so that what it raises leaves the view
    function. *)
Definition route_eval (rq : http_request) : M response :=
  request_json <- lift (get_json rq) ;;
  evaluate request_json.

End Routes.

(** ** An instance of the interface, to run the examples

    [Reference.parse] is a parser for the arithmetic fragment of Python's
    expression grammar, with the precedences and associativities of the
    language reference: decimal integers, point floats and imaginary
    literals, names, quoted strings without escapes, calls, parentheses, the
    thirteen binary and three symbolic unary operators.  Everything else is a
    [SyntaxError].  [Reference.fmod] is exact; [Reference.power] is the
    float power for integral exponents.  Complex arithmetic is not
    implemented by this instance. *)

Module Reference.

Inductive token :=
| TNum (v : value)
| TName (s : pystr)
| TStr (s : pystr)
| TOp (o : op_type)          (* a binary operator other than + and - *)
| TPlus | TMinus | TTilde
| TLParen | TRParen | TComma.

Definition is_digit (c : char) : bool := ((48 <=? c) && (c <=? 57))%N.

Definition is_name_start (c : char) : bool :=
  ((65 <=? c) && (c <=? 90) || (97 <=? c) && (c <=? 122) || (c =? 95))%N.

Definition is_name_char (c : char) : bool := is_name_start c || is_digit c.

Fixpoint span (p : char -> bool) (s : pystr) : pystr * pystr :=
  match s with
  | c :: rest =>
      if p c then let '(a, b) := span p rest in (c :: a, b) else ([], s)
  | [] => ([], [])
  end.

Definition digits_value (ds : pystr) : Z :=
  fold_left (fun acc c => 10 * acc + (Z.of_N c - 48)) ds 0.

(** The double nearest to [m / 10 ^ k]. *)
Definition decimal (m : Z) (k : nat) : float :=
  if m =? 0 then fzero
  else
    let '(mz, ez, lz) :=
      SFdiv_core_binary prec emax m 0 (10 ^ Z.of_nat k) 0 in
    binary_round_aux prec emax false mz ez lz.

(** A number literal at the head of [s]: its value and the rest, when the
    literal is well formed. *)
Definition lex_number (s : pystr) : option (value * pystr) :=
  let '(ip, r1) := span is_digit s in
  let '(has_point, fp, r2) :=
    match r1 with
    | 46%N :: r => let '(fp, r') := span is_digit r in (true, fp, r')
    | _ => (false, [], r1)
    end in
  match ip ++ fp with
  | [] => None
  | _ =>
      let leading_zero :=
        match ip with
        | 48%N :: _ :: _ => negb (digits_value ip =? 0)
        | _ => false
        end in
      if negb has_point && leading_zero then None
      else
        let x :=
          if has_point then VFloat (decimal (digits_value (ip ++ fp)) (List.length fp))
          else VInt (digits_value ip) in
        match r2 with
        | c :: r3 =>
            if ((c =? 106) || (c =? 74))%N
            then
              match (if has_point then Returns (decimal (digits_value (ip ++ fp))
                                                  (List.length fp))
                     else float_of_int (digits_value ip)) with
              | Returns im => Some (VComplex fzero im, r3)
              | Raises _ => None
              end
            else if is_name_char c then None
            else Some (x, r2)
        | [] => Some (x, r2)
        end
  end.

Fixpoint until_quote (q : char) (s : pystr) : option (pystr * pystr) :=
  match s with
  | [] => None
  | c :: rest =>
      if N.eqb c q then Some ([], rest)
      else if N.eqb c 92 then None
      else match until_quote q rest with
           | Some (a, b) => Some (c :: a, b)
           | None => None
           end
  end.

Fixpoint tokenize (fuel : nat) (s : pystr) : option (list token) :=
  match fuel with
  | O => match s with [] => Some [] | _ => None end
  | S fuel' =>
      let continue tok rest :=
        match tokenize fuel' rest with
        | Some ts => Some (tok :: ts)
        | None => None
        end in
      match s with
      | [] => Some []
      | c :: rest =>
          if ((c =? 32) || (c =? 9))%N then tokenize fuel' rest
          else if is_digit c || (N.eqb c 46) then
            match lex_number s with
            | Some (v, rest') => continue (TNum v) rest'
            | None => None
            end
          else if is_name_start c then
            let '(name, rest') := span is_name_char s in
            continue (TName name) rest'
          else if ((c =? 39) || (c =? 34))%N then
            match until_quote c rest with
            | Some (body, rest') => continue (TStr body) rest'
            | None => None
            end
          else
            match c, rest with
            | 42%N, 42%N :: rest' => continue (TOp Pow) rest'
            | 47%N, 47%N :: rest' => continue (TOp FloorDiv) rest'
            | 60%N, 60%N :: rest' => continue (TOp LShift) rest'
            | 62%N, 62%N :: rest' => continue (TOp RShift) rest'
            | 42%N, _ => continue (TOp Mult) rest
            | 47%N, _ => continue (TOp Div) rest
            | 37%N, _ => continue (TOp Mod) rest
            | 64%N, _ => continue (TOp MatMult) rest
            | 38%N, _ => continue (TOp BitAnd) rest
            | 124%N, _ => continue (TOp BitOr) rest
            | 94%N, _ => continue (TOp BitXor) rest
            | 43%N, _ => continue TPlus rest
            | 45%N, _ => continue TMinus rest
            | 126%N, _ => continue TTilde rest
            | 40%N, _ => continue TLParen rest
            | 41%N, _ => continue TRParen rest
            | 44%N, _ => continue TComma rest
            | _, _ => None
            end
      end
  end.

(** The binary operator a token denotes at precedence level [lvl]:
    0 [|], 1 [^], 2 [&], 3 shifts, 4 [+ -], 5 [* / // % @]. *)
Definition binary_at (lvl : nat) (t : token) : option op_type :=
  match lvl, t with
  | 0%nat, TOp BitOr => Some BitOr
  | 1%nat, TOp BitXor => Some BitXor
  | 2%nat, TOp BitAnd => Some BitAnd
  | 3%nat, TOp LShift => Some LShift
  | 3%nat, TOp RShift => Some RShift
  | 4%nat, TPlus => Some Add
  | 4%nat, TMinus => Some Sub
  | 5%nat, TOp Mult => Some Mult
  | 5%nat, TOp Div => Some Div
  | 5%nat, TOp FloorDiv => Some FloorDiv
  | 5%nat, TOp Mod => Some Mod
  | 5%nat, TOp MatMult => Some MatMult
  | _, _ => None
  end.

Definition parsed (A : Type) := option (A * list token).

(** [level lvl]: an expression of precedence [lvl] or tighter; level 6 is
    [factor], level 7 is [power], level 8 is [primary].  [rest lvl lhs]
    continues a left-associative chain; [trailers f] reads the calls applied
    to [f]; [args] reads the arguments of a call up to its parenthesis. *)
Fixpoint level (fuel : nat) (lvl : nat) (ts : list token) {struct fuel}
  : parsed node :=
  match fuel with
  | O => None
  | S fuel' =>
      match lvl with
      | 6%nat =>
          match ts with
          | TPlus :: ts' =>
              match level fuel' 6 ts' with
              | Some (x, r) => Some (UnaryOp UAdd x, r)
              | None => None
              end
          | TMinus :: ts' =>
              match level fuel' 6 ts' with
              | Some (x, r) => Some (UnaryOp USub x, r)
              | None => None
              end
          | TTilde :: ts' =>
              match level fuel' 6 ts' with
              | Some (x, r) => Some (UnaryOp Invert x, r)
              | None => None
              end
          | _ => level fuel' 7 ts
          end
      | 7%nat =>
          match level fuel' 8 ts with
          | Some (base, TOp Pow :: r) =>
              match level fuel' 6 r with
              | Some (e, r') => Some (BinOp base Pow e, r')
              | None => None
              end
          | other => other
          end
      | 8%nat =>
          match ts with
          | TNum v :: r => trailers fuel' (Num v) r
          | TName _ :: r => trailers fuel' (Other (lit "ast.Name") []) r
          | TStr _ :: r => trailers fuel' (Other (lit "ast.Constant") []) r
          | TLParen :: r =>
              match level fuel' 0 r with
              | Some (x, TRParen :: r') => trailers fuel' x r'
              | _ => None
              end
          | _ => None
          end
      | _ =>
          match level fuel' (S lvl) ts with
          | Some (lhs, r) => rest fuel' lvl lhs r
          | None => None
          end
      end
  end
with rest (fuel : nat) (lvl : nat) (lhs : node) (ts : list token)
  {struct fuel} : parsed node :=
  match fuel with
  | O => None
  | S fuel' =>
      match ts with
      | t :: ts' =>
          match binary_at lvl t with
          | Some o =>
              match level fuel' (S lvl) ts' with
              | Some (rhs, r) => rest fuel' lvl (BinOp lhs o rhs) r
              | None => None
              end
          | None => Some (lhs, ts)
          end
      | [] => Some (lhs, ts)
      end
  end
with trailers (fuel : nat) (f : node) (ts : list token) {struct fuel}
  : parsed node :=
  match fuel with
  | O => None
  | S fuel' =>
      match ts with
      | TLParen :: TRParen :: r =>
          trailers fuel' (Other (lit "ast.Call") [f]) r
      | TLParen :: r =>
          match args fuel' r with
          | Some (xs, r') => trailers fuel' (Other (lit "ast.Call") (f :: xs)) r'
          | None => None
          end
      | _ => Some (f, ts)
      end
  end
with args (fuel : nat) (ts : list token) {struct fuel} : parsed (list node) :=
  match fuel with
  | O => None
  | S fuel' =>
      match level fuel' 0 ts with
      | Some (x, TRParen :: r) => Some ([x], r)
      | Some (x, TComma :: TRParen :: r) => Some ([x], r)
      | Some (x, TComma :: r) =>
          match args fuel' r with
          | Some (xs, r') => Some (x :: xs, r')
          | None => None
          end
      | _ => None
      end
  end.

Definition invalid_syntax : exn :=
  Exn SyntaxError (lit "invalid syntax (<unknown>, line 1)").

Definition parse (s : pystr) : result node :=
  match tokenize (List.length s) s with
  | Some ts =>
      match level (12 * (List.length ts + 1)) 0 ts with
      | Some (body, []) => Returns (Expression body)
      | _ => Raises invalid_syntax
      end
  | None => Raises invalid_syntax
  end.

(** C [fmod] on doubles: exact, with the sign of the dividend. *)
Definition fmod (x y : float) : float :=
  match x, y with
  | S754_nan, _ | _, S754_nan => S754_nan
  | S754_infinity _, _ | _, S754_zero _ => S754_nan
  | S754_zero _, _ | _, S754_infinity _ => x
  | S754_finite sx mx ex, S754_finite _ my ey =>
      let e := Z.min ex ey in
      let r := Z.rem (Zpos mx * 2 ^ (ex - e)) (Zpos my * 2 ^ (ey - e)) in
      if r =? 0 then S754_zero sx
      else binary_normalize prec emax (cond_Zopp sx r) e false
  end.

Definition not_implemented : exn :=
  Exn MemoryError (lit "not implemented by the reference instance").

(** The integer a double is, when it is one. *)
Definition integral (y : float) : option Z :=
  match y with
  | S754_zero _ => Some 0
  | S754_finite s m e =>
      if 0 <=? e then Some (cond_Zopp s (Zpos m * 2 ^ e))
      else if Zpos m mod 2 ^ (- e) =? 0
           then Some (cond_Zopp s (Zpos m / 2 ^ (- e)))
           else None
  | _ => None
  end.

Definition out_of_range : exn :=
  Exn OverflowError (lit "(34, 'Numerical result out of range')").

(** [float.__pow__] for a positive finite base and an exponent that is an
    integer of magnitude at most 65536: the power, correctly rounded, and
    [OverflowError] when it is beyond the largest double.  Other arguments
    are not implemented. *)
Definition power (x y : float) : result value :=
  match x, integral y with
  | S754_finite false m e, Some n =>
      if Z.abs n <=? 65536 then
        let r :=
          if 0 <=? n then binary_normalize prec emax (Zpos m ^ n) (e * n) false
          else
            let '(mz, ez, lz) :=
              SFdiv_core_binary prec emax 1 0 (Zpos m ^ (- n)) (e * (- n)) in
            binary_round_aux prec emax false mz ez lz in
        match r with
        | S754_infinity _ => Raises out_of_range
        | _ => Returns (VFloat r)
        end
      else Raises not_implemented
  | _, _ => Raises not_implemented
  end.

Definition exceeds_the_limit : exn :=
  Exn ValueError
    (lit "Exceeds the limit (4300 digits) for integer string conversion").

#[global] Instance runtime : Runtime := {|
  ast_parse := parse;
  libm_fmod := fmod;
  float_pow := power;
  complex_arith := fun _ _ _ => Raises not_implemented;
  unicode_isdigit := fun _ => false;
  int_max_str_digits := 4300;
  int_too_long := exceeds_the_limit
|}.

End Reference.

(** ** Notions of the specification *)

(** The result of a computation, leaving the store aside. *)
Definition outcome {A} (m : M A) (g : globals) : result A := fst (m g).

(** The specification's "look up the operator tag in the allow-list": the
    function mapped to the tag, if any. *)
Fixpoint allow_list_lookup (d : dict) (k : op_type) : option callable :=
  match d with
  | [] => None
  | (k', f) :: d' => if op_type_beq k k' then Some f else allow_list_lookup d' k
  end.

(** The request body [{"expr": s}]. *)
Definition request (s : pystr) : json := JDict [(lit "expr", JStr s)].

(** A tree has a node outside the grammar of the evaluator: a node that is
    not a number, a binary operation or a unary operation.  The [Expression]
    wrapper the parser puts at the root is not counted. *)
Fixpoint has_disallowed (n : node) : bool :=
  match n with
  | Num _ => false
  | Expression body => has_disallowed body
  | BinOp l _ r => has_disallowed l || has_disallowed r
  | UnaryOp _ x => has_disallowed x
  | Other _ _ => true
  end.

(** [subexpr s n]: [s] is [n] or an operand, at any depth, of [n]. *)
Inductive subexpr (s : node) : node -> Prop :=
| sub_refl : subexpr s s
| sub_body body : subexpr s body -> subexpr s (Expression body)
| sub_left l o r : subexpr s l -> subexpr s (BinOp l o r)
| sub_right l o r : subexpr s r -> subexpr s (BinOp l o r)
| sub_operand o x : subexpr s x -> subexpr s (UnaryOp o x).

(** Two trees that differ only in what lies inside their disallowed nodes. *)
Inductive same_outside : node -> node -> Prop :=
| so_num v : same_outside (Num v) (Num v)
| so_expression b b' : same_outside b b' ->
    same_outside (Expression b) (Expression b')
| so_binop l l' o r r' : same_outside l l' -> same_outside r r' ->
    same_outside (BinOp l o r) (BinOp l' o r')
| so_unaryop o x x' : same_outside x x' ->
    same_outside (UnaryOp o x) (UnaryOp o x')
| so_other cls fields fields' :
    same_outside (Other cls fields) (Other cls fields').

(** *** The mathematical value of an expression

    The value of a tree in exact rational arithmetic, in lowest terms;
    [None] where the expression has none (a complex or non-finite literal, a
    zero divisor, zero to a negative power, a fractional exponent, an
    operator outside arithmetic).  [%] is the floored modulo. *)

Definition float_exact (x : float) : option Q :=
  match x with
  | S754_zero _ => Some 0%Q
  | S754_finite s m e =>
      Some (Qred (inject_Z (cond_Zopp s (Zpos m)) * Qpower 2 e))
  | _ => None
  end.

Definition is_integer (q : Q) : bool := Pos.eqb (Qden (Qred q)) 1.

Definition Qmod (a b : Q) : Q := (a - b * inject_Z (Qfloor (a / b)))%Q.

Definition math_binop (o : op_type) (a b : Q) : option Q :=
  match o with
  | Add => Some (Qred (a + b))
  | Sub => Some (Qred (a - b))
  | Mult => Some (Qred (a * b))
  | Div => if Qeq_bool b 0 then None else Some (Qred (a / b))
  | Mod => if Qeq_bool b 0 then None else Some (Qred (Qmod a b))
  | Pow =>
      if is_integer b && negb (Qeq_bool a 0 && (Qnum b <? 0))
      then Some (Qred (Qpower a (Qnum (Qred b))))
      else None
  | _ => None
  end.

Fixpoint math_value (n : node) : option Q :=
  match n with
  | Num (VInt i) => Some (inject_Z i)
  | Num (VFloat x) => float_exact x
  | Num (VComplex _ _) => None
  | Expression body => math_value body
  | BinOp l o r =>
      match math_value l, math_value r with
      | Some a, Some b => math_binop o a b
      | _, _ => None
      end
  | UnaryOp UAdd x => math_value x
  | UnaryOp USub x => option_map (fun a => Qred (- a)) (math_value x)
  | UnaryOp _ _ => None
  | Other _ _ => None
  end.





(** *** Division by zero *)

(** A zero of type [int] or [float]. *)
Definition real_zero (b : value) : bool :=
  match b with
  | VInt 0 => true
  | VFloat (S754_zero _) => true
  | _ => false
  end.

(** The divisor [b] is a real zero and the dividend [a] reaches the
    division: both are [int]s, or [a] is an [int] or a [float] that converts
    to a double. *)
Definition zero_divisor (a b : value) : Prop :=
  real_zero b = true /\
  match a, b with
  | VInt _, VInt _ => True
  | VComplex _ _, _ => False
  | _, _ => exists x, convert_to_double a = Returns x
  end.

Section DividesByZero.
Context {rt : Runtime}.

(** The evaluation of a tree comes to a [/] or a [%] whose operands have been
    evaluated and whose divisor is zero. *)
Inductive divides_by_zero : node -> Prop :=
| dz_here l o r a b :
    o = Div \/ o = Mod ->
    outcome (_eval l) module_globals = Returns a ->
    outcome (_eval r) module_globals = Returns b ->
    zero_divisor a b ->
    divides_by_zero (BinOp l o r)
| dz_left l o r : divides_by_zero l -> divides_by_zero (BinOp l o r)
| dz_right l o r a :
    outcome (_eval l) module_globals = Returns a ->
    divides_by_zero r -> divides_by_zero (BinOp l o r)
| dz_operand o x : divides_by_zero x -> divides_by_zero (UnaryOp o x)
| dz_body body : divides_by_zero body -> divides_by_zero (Expression body).

End DividesByZero.

(** *** The allow-list, operator by operator *)

Section AllowList.
Context {rt : Runtime}.

(** [out] is what a binary operation of operator [o] comes to when its
    operands have the values [a] and [b], with the allow-list of lines 9 to
    18: the function mapped to [o] applied to [a] and [b]; a [TypeError] of
    the call for the two unary operators, which take one argument; the
    "operator not allowed" error for every other operator. *)
Definition binary_outcome (o : op_type) (a b : value) (out : result value)
  : Prop :=
  match o with
  | Add => out = op.add a b
  | Sub => out = op.sub a b
  | Mult => out = op.mul a b
  | Div => out = op.truediv a b
  | Pow => out = op.pow a b
  | Mod => out = op.mod_ a b
  | USub | UAdd => exists e, out = Raises e /\ exn_class_of e = TypeError
  | _ => out = Raises (operator_not_allowed o)
  end.

(** The same for a unary operation whose operand has the value [a]. *)
Definition unary_outcome (o : op_type) (a : value) (out : result value)
  : Prop :=
  match o with
  | USub => out = op.neg a
  | UAdd => out = op.pos a
  | Add | Sub | Mult | Div | Pow | Mod =>
      exists e, out = Raises e /\ exn_class_of e = TypeError
  | _ => out = Raises (unary_operator_not_allowed o)
  end.

End AllowList.

(** *** The percent form, in the words of the specification *)

(** The trimmed input ends with [%] and the rest of it, less at most one
    decimal point, is made of digits. *)
Definition percent_form {rt : Runtime} (s : pystr) : bool :=
  let trimmed := Str.strip s in
  Str.endswith trimmed (lit "%")
  && Str.isdigit unicode_isdigit
       (Str.replace (Str.but_last trimmed) 46%N [] (Some 1%nat)).

(** The double 0.5. *)
Definition one_half : float := S754_finite false 4503599627370496 (-53).

(** ** Inputs of the examples, on the reference instance *)

Module Examples.

(** The store of the module under the reference instance. *)
Definition g0 : globals := @module_globals Reference.runtime.

(** The answer of the view function to the request [{"expr": s}]. *)
Definition run (s : pystr) : result response :=
  outcome (@evaluate Reference.runtime (request s)) g0.

(** What the evaluator returns or raises on the string [s]. *)
Definition eval_string (s : pystr) : result value :=
  outcome (@safe_eval Reference.runtime s) g0.

Definition name : node := Other (lit "ast.Name") [].

(** The tree of [__import__('os')]. *)
Definition import_os : node :=
  Expression (Other (lit "ast.Call") [name; Other (lit "ast.Constant") []]).

(** The tree of [1/0+x]. *)
Definition one_by_zero_plus_x : node :=
  Expression (BinOp (BinOp (Num (VInt 1)) Div (Num (VInt 0))) Add name).

(** The operation [10/0]. *)
Definition ten_by_zero : node := BinOp (Num (VInt 10)) Div (Num (VInt 0)).

(** The tree of [10**400/0.0]. *)
Definition huge_by_zero : node :=
  Expression (BinOp (BinOp (Num (VInt 10)) Pow (Num (VInt 400))) Div
                (Num (VFloat fzero))).






(** The doubles 1.0 and 2.0. *)
Definition one : float := S754_finite false 4503599627370496 (-52).
Definition two : float := S754_finite false 4503599627370496 (-51).



(** The string [7×6]. *)
Definition seven_times_six : pystr := [55%N; times_sign; 54%N].

End Examples.

(** ** The rest of the program *)

(** *** More notions about the evaluator *)

(** The operators of the allow-list, by the kind of operation that can use
    them. *)
Definition binary_allowed (o : op_type) : bool :=
  match o with
  | Add | Sub | Mult | Div | Pow | Mod => true
  | _ => false
  end.

Definition unary_allowed (o : op_type) : bool :=
  match o with
  | USub | UAdd => true
  | _ => false
  end.

(** A tree of the grammar the evaluator supports: numbers, the six binary
    and the two unary operators of the allow-list, nothing else. *)
Fixpoint in_grammar (n : node) : bool :=
  match n with
  | Num _ => true
  | Expression body => in_grammar body
  | BinOp l o r => in_grammar l && binary_allowed o && in_grammar r
  | UnaryOp o x => unary_allowed o && in_grammar x
  | Other _ _ => false
  end.

(** Integer literals under [+], [-], [*], [%] and the two unary operators. *)
Fixpoint int_tree (n : node) : bool :=
  match n with
  | Num (VInt _) => true
  | Num _ => false
  | Expression body => int_tree body
  | BinOp l o r =>
      int_tree l && int_tree r
      && match o with Add | Sub | Mult | Mod => true | _ => false end
  | UnaryOp o x => int_tree x && unary_allowed o
  | Other _ _ => false
  end.

(** *** Expressions as they are written *)

(** A decimal integer literal of Python: digits, without a leading zero
    unless the number is zero.  Its value is [Reference.digits_value]. *)
Definition int_literal (s : pystr) : bool :=
  forallb Reference.is_digit s &&
  match s with
  | [] => false
  | 48%N :: _ :: _ => Reference.digits_value s =? 0
  | _ => true
  end.

(** How the binary operators of the allow-list are written. *)
Definition symbol (o : op_type) : pystr :=
  match o with
  | Add => lit "+"
  | Sub => lit "-"
  | Mult => lit "*"
  | Div => lit "/"
  | Mod => lit "%"
  | Pow => lit "**"
  | _ => []
  end.



(** What the reference tokenizer makes of such expressions: the characters
    that end a number in them ([%], [)], [*], [+], [-], [/]), the start of
    an operand (a digit or a parenthesis) and the token of an operator. *)
Definition delimiters : list char := [37; 41; 42; 43; 45; 47]%N.

Definition delimited (s : pystr) : Prop :=
  match s with
  | [] => True
  | c :: _ => In c delimiters
  end.

Definition operand_start (s : pystr) : Prop :=
  match s with
  | [] => False
  | c :: _ => Reference.is_digit c = true \/ c = 40%N
  end.

Definition token_of (o : op_type) : Reference.token :=
  match o with
  | Add => Reference.TPlus
  | Sub => Reference.TMinus
  | _ => Reference.TOp o
  end.

Definition consed (t : Reference.token) (ts : option (list Reference.token))
  : option (list Reference.token) :=
  match ts with
  | Some ts => Some (t :: ts)
  | None => None
  end.

Definition integer_modulo_by_zero : exn :=
  Exn ZeroDivisionError (lit "integer division or modulo by zero").

(** The string after the two [replace] calls of the view function. *)
Definition replaced (expr : pystr) : pystr :=
  Str.replace (Str.replace expr times_sign (lit "*") None)
              division_sign (lit "/") None.

(** *** The four-operation API of [caculator.py] *)

Module Calculator.

(** The double 1.0. *)
Definition fone : float := S754_finite false 4503599627370496 (-52).

(** The JSON body of a response and its HTTP status. *)
Inductive body :=
| Result (result : float)
| Error (error : pystr).

Definition response : Type := body * Z.

Definition division_by_zero : response :=
  (Error (lit "Division by zero is not allowed!"), 400).

Definition invalid_operation : response :=
  (Error (lit "Invalid operation!"), 400).

Definition invalid_input : response :=
  (Error (lit "Invalid input! Please provide valid numbers."), 400).

(** What the view function takes from the interpreter: [float(s)] for a
    string, which returns a double or raises [ValueError], and [repr(s)]. *)
Class Conversions := {
  float_of_str : pystr -> option float;
  repr_str : pystr -> pystr
}.

Section Calculate.
Context {cv : Conversions}.

(** [data[key]] *)
Definition subscript (data : json) (key : string) : result json :=
  match data with
  | JDict items =>
      match lookup items (lit key) with
      | Some v => Returns v
      | None => Raises (Exn KeyError (lit "'" ++ lit key ++ lit "'"))
      end
  | JList _ =>
      Raises (Exn TypeError
                (lit "list indices must be integers or slices, not str"))
  | JStr _ => Raises (Exn TypeError (lit "string indices must be integers"))
  | _ =>
      Raises (Exn TypeError
                (lit "'" ++ lit (type_name data)
                 ++ lit "' object is not subscriptable"))
  end.

(** [float(x)] *)
Definition to_float (x : json) : result float :=
  match x with
  | JInt i => float_of_int i
  | JFloat f => Returns f
  | JBool b => Returns (if b then fone else fzero)
  | JStr s =>
      match float_of_str s with
      | Some f => Returns f
      | None =>
          Raises (Exn ValueError
                    (lit "could not convert string to float: " ++ repr_str s))
      end
  | _ =>
      Raises (Exn TypeError
                (lit "float() argument must be a string or a number, not '"
                 ++ lit (type_name x) ++ lit "'"))
  end.

(** [operation == name] *)
Definition is_operation (operation : json) (name : string) : bool :=
  match operation with
  | JStr s => pystr_eqb s (lit name)
  | _ => false
  end.

(** The classes of the [except] clause. *)
Definition caught (e : exn) : bool :=
  match exn_class_of e with
  | ValueError | KeyError | TypeError => true
  | _ => false
  end.

(** The body of the [try] block. *)
Definition compute (data : json) : result response :=
  a <-? subscript data "num1" ;
  num1 <-? to_float a ;
  b <-? subscript data "num2" ;
  num2 <-? to_float b ;
  operation <-? subscript data "operation" ;
  if is_operation operation "add"
  then Returns (Result (SFadd prec emax num1 num2), 200)
  else if is_operation operation "subtract"
  then Returns (Result (SFsub prec emax num1 num2), 200)
  else if is_operation operation "multiply"
  then Returns (Result (SFmul prec emax num1 num2), 200)
  else if is_operation operation "divide"
  then
    if float_is_zero num2 then Returns division_by_zero
    else Returns (Result (SFdiv prec emax num1 num2), 200)
  else Returns invalid_operation.

(** The view function, given what [request.get_json()] returned: what it
    returns or raises, and the lines it prints.  [route_calculate], below,
    is the view function from the request. *)
Definition calculate (request_json : json) : result response * list pystr :=
  match compute request_json with
  | Returns resp => (Returns resp, [])
  | Raises e =>
      if caught e
      then (Returns invalid_input, [lit "API Error: " ++ str e])
      else (Raises e, [])
  end.

(** The two numbers of a request, when both are there and convert. *)
Definition operands (data : json) : result (float * float) :=
  a <-? subscript data "num1" ;
  num1 <-? to_float a ;
  b <-? subscript data "num2" ;
  num2 <-? to_float b ;
  Returns (num1, num2).

Context {fw : Framework}.

(** The view function from its first line, as the framework calls it for a
    request on [/api/calculate]: [request.get_json()] is called inside the
    [try] block, whose [except] clause lists three classes. *)
Definition route_calculate (rq : http_request)
  : result response * list pystr :=
  match get_json rq with
  | Returns request_json => calculate request_json
  | Raises e =>
      if caught e
      then (Returns invalid_input, [lit "API Error: " ++ str e])
      else (Raises e, [])
  end.

End Calculate.

End Calculator.

(** *** The keypad script of the page *)

Module Keypad.

(** The variable [expr] of the script and the text of the display. *)
Record state := { expr : pystr; textContent : pystr }.

(** The page as it is loaded. *)
Definition initial : state := {| expr := []; textContent := lit "0" |}.

Definition assign (e : pystr) (st : state) : state :=
  {| expr := e; textContent := textContent st |}.

Definition refreshDisplay (st : state) : state :=
  {| expr := expr st;
     textContent := match expr st with [] => lit "0" | _ => expr st end |}.

Definition press (val : pystr) (st : state) : state :=
  if pystr_eqb val (lit "C") then refreshDisplay (assign [] st)
  else if pystr_eqb val (lit "+/-") then
    refreshDisplay
      (if Str.startswith (expr st) (lit "-")
       then assign (tl (expr st)) st
       else assign (lit "-" ++ expr st) st)
  else refreshDisplay (assign (expr st ++ val) st).

(** [/^[0-9]$/.test(k)] *)
Definition is_digit_key (k : pystr) : bool :=
  match k with
  | [c] => ((48 <=? c) && (c <=? 57))%N
  | _ => false
  end.

Definition is_typed_key (k : pystr) : bool :=
  is_digit_key k
  || pystr_eqb k (lit "+") || pystr_eqb k (lit "-") || pystr_eqb k (lit "*")
  || pystr_eqb k (lit "/") || pystr_eqb k (lit "%") || pystr_eqb k (lit ".").

(** The [keydown] listener.  [Enter] starts [evaluate()], which changes
    nothing until the answer of the server arrives. *)
Definition keydown (k : pystr) (st : state) : state :=
  if is_typed_key k then press k st
  else if pystr_eqb k (lit "Enter") then st
  else if pystr_eqb k (lit "Backspace")
  then refreshDisplay (assign (removelast (expr st)) st)
  else if pystr_eqb k (lit "c") || pystr_eqb k (lit "C")
  then press (lit "C") st
  else st.

(** The values the buttons of the page pass to [press]. *)
Definition buttons : list pystr :=
  List.map lit
    ["C"; "+/-"; "%"; "/"; "7"; "8"; "9"; "*"; "4"; "5"; "6"; "-";
     "1"; "2"; "3"; "+"; "0"; "."]%string.

(** What the user does: a click on a button that calls [press], or a key. *)
Inductive event :=
| Click (val : pystr)
| Key (k : pystr).

Definition valid (ev : event) : Prop :=
  match ev with
  | Click val => In val buttons
  | Key _ => True
  end.

Definition step (st : state) (ev : event) : state :=
  match ev with
  | Click val => press val st
  | Key k => keydown k st
  end.

(** The characters the keypad and the keyboard can put in [expr]. *)
Definition keypad_char (c : char) : bool :=
  ((48 <=? c) && (c <=? 57) || (c =? 43) || (c =? 45) || (c =? 42)
   || (c =? 47) || (c =? 37) || (c =? 46))%N.

(** What the [+/-] button does to [expr]. *)
Definition toggle_sign (e : pystr) : pystr :=
  match e with
  | c :: rest => if N.eqb 45 c then rest else 45%N :: e
  | [] => [45%N]
  end.

(** What the script keeps true: [expr] is made of the characters of the
    keypad, and the display shows [expr], or [0] when [expr] is empty. *)
Definition in_sync (st : state) : Prop :=
  forallb keypad_char (expr st) = true
  /\ textContent st = match expr st with [] => lit "0" | _ => expr st end.

End Keypad.

(** *** An instance of the framework, to run the examples

    [Werkzeug.request_json] follows [Request.get_json] of Werkzeug 2.1 and
    later, with [on_json_loading_failed] as Flask overrides it on a server
    that is not in debug mode: a request whose media type is not JSON is
    answered 415, a body that is not JSON is answered 400.  [Werkzeug.loads]
    reads the JSON texts made of [null], [true], [false], integers, decimal
    numbers without exponent, strings without escapes, arrays and objects;
    exponents and escapes are not implemented. *)

Module Werkzeug.

(** [Request.is_json] *)
Definition is_json (mt : pystr) : bool :=
  pystr_eqb mt (lit "application/json")
  || Str.startswith mt (lit "application/") && Str.endswith mt (lit "+json").

Inductive loaded (A : Type) :=
| Loaded (a : A) (rest : pystr)
| Malformed
| NotImplemented.
Arguments Loaded {A} a rest.
Arguments Malformed {A}.
Arguments NotImplemented {A}.

Definition is_ws (c : char) : bool :=
  ((c =? 32) || (c =? 9) || (c =? 10) || (c =? 13))%N.

Fixpoint skip_ws (s : pystr) : pystr :=
  match s with
  | c :: rest => if is_ws c then skip_ws rest else s
  | [] => []
  end.

(** The characters of a string, after its opening quote. *)
Fixpoint string_body (s : pystr) : loaded pystr :=
  match s with
  | [] => Malformed
  | c :: rest =>
      if (c =? 34)%N then Loaded [] rest
      else if (c =? 92)%N then NotImplemented
      else if (c <? 32)%N then Malformed
      else match string_body rest with
           | Loaded a r => Loaded (c :: a) r
           | other => other
           end
  end.

Definition number (s : pystr) : loaded json :=
  let '(negative, s1) :=
    match s with
    | 45%N :: r => (true, r)
    | _ => (false, s)
    end in
  let '(ip, r1) := Reference.span Reference.is_digit s1 in
  match ip with
  | [] => Malformed
  | 48%N :: _ :: _ => Malformed
  | _ =>
      match r1 with
      | 46%N :: r =>
          let '(fp, r2) := Reference.span Reference.is_digit r in
          match fp, r2 with
          | [], _ => Malformed
          | _, (101%N | 69%N) :: _ => NotImplemented
          | _, _ =>
              let x := Reference.decimal (Reference.digits_value (ip ++ fp))
                         (List.length fp) in
              Loaded (JFloat (if negative then SFopp x else x)) r2
          end
      | (101%N | 69%N) :: _ => NotImplemented
      | _ => Loaded (JInt (cond_Zopp negative (Reference.digits_value ip))) r1
      end
  end.

(** [d[k] = v] on the items of a dictionary. *)
Fixpoint setitem (items : list (pystr * json)) (k : pystr) (v : json)
  : list (pystr * json) :=
  match items with
  | [] => [(k, v)]
  | (k', v') :: rest =>
      if pystr_eqb k' k then (k', v) :: rest
      else (k', v') :: setitem rest k v
  end.

(** [value_at]: a JSON value at the head of [s], after white space;
    [elements]: the values of an array up to its bracket; [members]: the
    pairs of an object up to its brace, added to [acc]. *)
Fixpoint value_at (fuel : nat) (s : pystr) {struct fuel} : loaded json :=
  match fuel with
  | O => NotImplemented
  | S fuel' =>
      match skip_ws s with
      | 110%N :: 117%N :: 108%N :: 108%N :: r => Loaded JNull r
      | 116%N :: 114%N :: 117%N :: 101%N :: r => Loaded (JBool true) r
      | 102%N :: 97%N :: 108%N :: 115%N :: 101%N :: r => Loaded (JBool false) r
      | 34%N :: r =>
          match string_body r with
          | Loaded b r' => Loaded (JStr b) r'
          | Malformed => Malformed
          | NotImplemented => NotImplemented
          end
      | 91%N :: r =>
          match skip_ws r with
          | 93%N :: r' => Loaded (JList []) r'
          | _ =>
              match elements fuel' r with
              | Loaded xs r' => Loaded (JList xs) r'
              | Malformed => Malformed
              | NotImplemented => NotImplemented
              end
          end
      | 123%N :: r =>
          match skip_ws r with
          | 125%N :: r' => Loaded (JDict []) r'
          | _ =>
              match members fuel' r [] with
              | Loaded items r' => Loaded (JDict items) r'
              | Malformed => Malformed
              | NotImplemented => NotImplemented
              end
          end
      | other => number other
      end
  end
with elements (fuel : nat) (s : pystr) {struct fuel} : loaded (list json) :=
  match fuel with
  | O => NotImplemented
  | S fuel' =>
      match value_at fuel' s with
      | Loaded x r =>
          match skip_ws r with
          | 93%N :: r' => Loaded [x] r'
          | 44%N :: r' =>
              match elements fuel' r' with
              | Loaded xs r'' => Loaded (x :: xs) r''
              | other => other
              end
          | _ => Malformed
          end
      | Malformed => Malformed
      | NotImplemented => NotImplemented
      end
  end
with members (fuel : nat) (s : pystr) (acc : list (pystr * json))
  {struct fuel} : loaded (list (pystr * json)) :=
  match fuel with
  | O => NotImplemented
  | S fuel' =>
      match skip_ws s with
      | 34%N :: r =>
          match string_body r with
          | Loaded k r1 =>
              match skip_ws r1 with
              | 58%N :: r2 =>
                  match value_at fuel' r2 with
                  | Loaded v r3 =>
                      match skip_ws r3 with
                      | 125%N :: r4 => Loaded (setitem acc k v) r4
                      | 44%N :: r4 => members fuel' r4 (setitem acc k v)
                      | _ => Malformed
                      end
                  | Malformed => Malformed
                  | NotImplemented => NotImplemented
                  end
              | _ => Malformed
              end
          | Malformed => Malformed
          | NotImplemented => NotImplemented
          end
      | _ => Malformed
      end
  end.

(** [json.loads] on the bytes of a body, which must hold one value and
    white space. *)
Definition loads (s : pystr) : loaded json :=
  match value_at (2 * List.length s + 2) s with
  | Loaded j r => match skip_ws r with [] => Loaded j [] | _ => Malformed end
  | other => other
  end.

Definition unsupported_media_type : exn :=
  Exn UnsupportedMediaType
    (lit "415 Unsupported Media Type: Did not attempt to load JSON data because the request Content-Type was not 'application/json'.").

Definition bad_request : exn :=
  Exn BadRequest
    (lit "400 Bad Request: The browser (or proxy) sent a request that this server could not understand.").

Definition request_json (rq : http_request) : result json :=
  if is_json (mimetype rq)
  then
    match loads (get_data rq) with
    | Loaded j _ => Returns j
    | Malformed => Raises bad_request
    | NotImplemented => Raises Reference.not_implemented
    end
  else Raises unsupported_media_type.

#[global] Instance framework : Framework := {|
  get_json := request_json
|}.

(** A POST request with the JSON text [body]. *)
Definition post (body : pystr) : http_request :=
  {| mimetype := lit "application/json"; get_data := body |}.

(** The JSON text of the string [s], which has no quote and no escape. *)
Definition quoted (s : string) : pystr := 34%N :: lit s ++ [34%N].

(** A POST request without a body: as a client sends it when it declares
    nothing, and when it declares JSON. *)
Definition no_body : http_request := {| mimetype := []; get_data := [] |}.
Definition no_body_json : http_request :=
  {| mimetype := lit "application/json"; get_data := [] |}.

End Werkzeug.

(** *** Inputs of the further examples *)

Module MoreExamples.

(** [float(s)] for the unsigned decimal numbers without exponent, and
    [repr(s)] for the strings without quotes or escapes. *)
Definition decimal_float (s : pystr) : option float :=
  match Reference.lex_number s with
  | Some (VFloat x, []) => Some x
  | Some (VInt i, []) => Some (binary_normalize prec emax i 0 false)
  | _ => None
  end.

#[global] Instance conversions : Calculator.Conversions := {|
  Calculator.float_of_str := decimal_float;
  Calculator.repr_str := fun s => lit "'" ++ s ++ lit "'"
|}.

(** The request [{"num1": num1, "num2": num2, "operation": name}]. *)
Definition api_request (num1 num2 : json) (name : string) : json :=
  JDict [(lit "num1", num1); (lit "num2", num2);
         (lit "operation", JStr (lit name))].

(** The doubles 6.0 and 3.0. *)
Definition six : float := S754_finite false 6755399441055744 (-50).
Definition three : float := S754_finite false 6755399441055744 (-51).

(** The tree of [7 % (2 - 2)]. *)
Definition seven_mod_zero : node :=
  BinOp (Num (VInt 7)) Mod (BinOp (Num (VInt 2)) Sub (Num (VInt 2))).

(** The clicks [7], [×], the key [6], the click [+/-] and [Backspace]. *)
Definition typing : list Keypad.event :=
  [Keypad.Click (lit "7"); Keypad.Click (lit "*"); Keypad.Key (lit "6");
   Keypad.Click (lit "+/-"); Keypad.Key (lit "Backspace")].

End MoreExamples.

(** ** Properties *)

Ltac monad := unfold outcome, bind, ret, raise, lift, load_global, try_except.

Section Properties.
Context {rt : Runtime}.

Lemma contains_lookup d k :
  dict_contains d k =
  match allow_list_lookup d k with Some _ => true | None => false end.
Proof.
  induction d as [|[k' f] d IH]; simpl; [reflexivity|].
  destruct (op_type_beq k k'); simpl; auto.
Qed.

Lemma getitem_lookup d k f :
  allow_list_lookup d k = Some f -> dict_getitem d k = Returns f.
Proof.
  induction d as [|[k' f'] d IH]; simpl; [discriminate|].
  destruct (op_type_beq k k'); auto. congruence.
Qed.

(** Evaluating a tree leaves the store as it found it. *)
Lemma _eval_store n : forall g, snd (_eval n g) = g.
Proof.
  induction n as [v|body IH|l IHl o r IHr|o x IH|cls fields]; intro g;
    simpl; monad; auto.
  - specialize (IHl g). destruct (_eval l g) as [[a|e] g1]; simpl in *; auto.
    specialize (IHr g1). destruct (_eval r g1) as [[b|e] g2]; simpl in *;
      [|congruence].
    destruct (dict_contains (ALLOWED_OPERATORS g2) o); simpl; [|congruence].
    destruct (dict_getitem (ALLOWED_OPERATORS g2) o); simpl; congruence.
  - specialize (IH g). destruct (_eval x g) as [[a|e] g1]; simpl in *; auto.
    destruct (dict_contains (ALLOWED_OPERATORS g1) o); simpl; auto.
    destruct (dict_getitem (ALLOWED_OPERATORS g1) o); simpl; auto.
Qed.

Lemma _eval_pair n g : _eval n g = (outcome (_eval n) g, g).
Proof.
  unfold outcome. rewrite <- (_eval_store n g) at 3.
  destruct (_eval n g); reflexivity.
Qed.

Lemma outcome_BinOp l o r g :
  outcome (_eval (BinOp l o r)) g =
  match outcome (_eval l) g with
  | Raises e => Raises e
  | Returns a =>
      match outcome (_eval r) g with
      | Raises e => Raises e
      | Returns b =>
          match allow_list_lookup (ALLOWED_OPERATORS g) o with
          | None => Raises (operator_not_allowed o)
          | Some f => call f [a; b]
          end
      end
  end.
Proof.
  unfold outcome at 1. simpl. monad.
  rewrite (_eval_pair l g). destruct (outcome (_eval l) g) as [a|e]; auto.
  rewrite (_eval_pair r g). destruct (outcome (_eval r) g) as [b|e]; auto.
  rewrite contains_lookup.
  destruct (allow_list_lookup (ALLOWED_OPERATORS g) o) as [f|] eqn:L; auto.
  rewrite (getitem_lookup _ _ _ L). reflexivity.
Qed.

Lemma outcome_UnaryOp o x g :
  outcome (_eval (UnaryOp o x)) g =
  match outcome (_eval x) g with
  | Raises e => Raises e
  | Returns a =>
      match allow_list_lookup (ALLOWED_OPERATORS g) o with
      | None => Raises (unary_operator_not_allowed o)
      | Some f => call f [a]
      end
  end.
Proof.
  unfold outcome at 1. simpl. monad.
  rewrite (_eval_pair x g). destruct (outcome (_eval x) g) as [a|e]; auto.
  rewrite contains_lookup.
  destruct (allow_list_lookup (ALLOWED_OPERATORS g) o) as [f|] eqn:L; auto.
  rewrite (getitem_lookup _ _ _ L). reflexivity.
Qed.

Lemma safe_eval_store s g : snd (safe_eval s g) = g.
Proof.
  unfold safe_eval. monad. destruct (ast_parse s); simpl; auto.
  apply _eval_store.
Qed.

Lemma outcome_safe_eval s g :
  outcome (safe_eval s) g =
  match ast_parse s with
  | Returns t => outcome (_eval t) g
  | Raises e => Raises e
  end.
Proof.
  unfold safe_eval. monad. destruct (ast_parse s); reflexivity.
Qed.

Lemma evaluate_store body g : snd (evaluate body g) = g.
Proof.
  unfold evaluate. monad.
  destruct (get _ _ _) as [expr|e]; simpl; auto.
  destruct expr; simpl; auto.
  pose proof (safe_eval_store (clean s) g) as H.
  destruct (safe_eval (clean s) g) as [[v|e] g1]; simpl in *; auto.
  destruct (jsonify_success v s); simpl; auto.
Qed.

(** What the view function answers for a request whose ["expr"] is the
    string [s]. *)
Lemma outcome_evaluate_str items s g :
  lookup items (lit "expr") = Some (JStr s) ->
  outcome (evaluate (JDict items)) g =
  Returns
    match outcome (safe_eval (clean s)) g with
    | Raises e => Failure (str e)
    | Returns v =>
        match jsonify_success v s with
        | Returns resp => resp
        | Raises e => Failure (str e)
        end
    end.
Proof.
  intro L. unfold evaluate.
  assert (T : truthy (JDict items) = true)
    by (destruct items; [discriminate|reflexivity]).
  rewrite T. monad. simpl. rewrite L. simpl.
  destruct (safe_eval (clean s) g) as [[v|e] g1]; simpl; auto.
  destruct (jsonify_success v s); reflexivity.
Qed.

Lemma outcome_evaluate_request s g :
  outcome (evaluate (request s)) g =
  Returns
    match outcome (safe_eval (clean s)) g with
    | Raises e => Failure (str e)
    | Returns v =>
        match jsonify_success v s with
        | Returns resp => resp
        | Raises e => Failure (str e)
        end
    end.
Proof. apply outcome_evaluate_str. reflexivity. Qed.

Lemma int_repr_small i : Z.abs i < 10 ^ 640 -> int_repr_error i = None.
Proof.
  intro H. unfold int_repr_error.
  destruct (10 ^ Z.max int_max_str_digits 640 <=? Z.abs i) eqn:E;
    [|now rewrite andb_false_r].
  apply Z.leb_le in E.
  assert (L : 10 ^ 640 <= 10 ^ Z.max int_max_str_digits 640)
    by (apply Z.pow_le_mono_r; lia).
  lia.
Qed.

Lemma jsonify_small_int i s :
  Z.abs i < 10 ^ 640 ->
  jsonify_success (VInt i) s = Returns (Success (VInt i) s).
Proof. intro H. simpl. rewrite (int_repr_small i H). reflexivity. Qed.

(** The response to the request [{"expr": s}] when the parser gives [t] for
    the cleaned expression and [t] evaluates to the small integer [i]. *)
Lemma evaluate_small_int s t i :
  ast_parse (clean s) = Returns t ->
  outcome (_eval t) module_globals = Returns (VInt i) ->
  Z.abs i < 10 ^ 640 ->
  outcome (evaluate (request s)) module_globals =
  Returns (Success (VInt i) s).
Proof.
  intros P E H.
  rewrite outcome_evaluate_request, outcome_safe_eval, P, E.
  rewrite (jsonify_small_int i s H). reflexivity.
Qed.

(** *** Order of evaluation and operator lookup *)

(** C4: a binary operation evaluates its left operand, then its right
    operand, then looks its operator up in the allow-list.  An exception of
    the left operand is the outcome whatever the right operand and the
    operator are; one of the right operand is the outcome whatever the
    operator is; with both values at hand, an operator that is absent from
    the allow-list raises the "operator not allowed" error and one that is
    mapped to a binary function returns what that function returns on the
    two values, left one first.  A unary operation does the same with its
    single operand.  With the allow-list of the module the functions are
    those of lines 9 to 18: [+] is [op.add], [-] is [op.sub], [*] is
    [op.mul], [/] is [op.truediv], [**] is [op.pow], [%] is [op.mod], unary
    [-] is [op.neg] and unary [+] is [op.pos]; every other operator is not
    allowed, and an allowed operator met with the wrong number of operands
    is a [TypeError] of the call.  In particular an operation on two
    numbers, or on one, comes to just that. *)
Theorem C4_operands_then_lookup (g : globals) (l r x : node) (o : op_type)
    (a b : value) (e : exn) :
  (outcome (_eval l) g = Raises e ->
   outcome (_eval (BinOp l o r)) g = Raises e)
  /\ (outcome (_eval l) g = Returns a ->
      outcome (_eval r) g = Raises e ->
      outcome (_eval (BinOp l o r)) g = Raises e)
  /\ (outcome (_eval l) g = Returns a ->
      outcome (_eval r) g = Returns b ->
      (allow_list_lookup (ALLOWED_OPERATORS g) o = None ->
       outcome (_eval (BinOp l o r)) g = Raises (operator_not_allowed o))
      /\ (forall f, allow_list_lookup (ALLOWED_OPERATORS g) o = Some (Fn2 f) ->
            outcome (_eval (BinOp l o r)) g = f a b))
  /\ (outcome (_eval x) g = Raises e ->
      outcome (_eval (UnaryOp o x)) g = Raises e)
  /\ (outcome (_eval x) g = Returns a ->
      (allow_list_lookup (ALLOWED_OPERATORS g) o = None ->
       outcome (_eval (UnaryOp o x)) g =
       Raises (unary_operator_not_allowed o))
      /\ (forall f, allow_list_lookup (ALLOWED_OPERATORS g) o = Some (Fn1 f) ->
            outcome (_eval (UnaryOp o x)) g = f a))
  /\ (outcome (_eval l) module_globals = Returns a ->
      outcome (_eval r) module_globals = Returns b ->
      binary_outcome o a b (outcome (_eval (BinOp l o r)) module_globals))
  /\ (outcome (_eval x) module_globals = Returns a ->
      unary_outcome o a (outcome (_eval (UnaryOp o x)) module_globals))
  /\ binary_outcome o a b
       (outcome (_eval (BinOp (Num a) o (Num b))) module_globals)
  /\ unary_outcome o a (outcome (_eval (UnaryOp o (Num a))) module_globals).
Proof.
  assert (B : forall l' r',
    outcome (_eval l') module_globals = Returns a ->
    outcome (_eval r') module_globals = Returns b ->
    binary_outcome o a b (outcome (_eval (BinOp l' o r')) module_globals)).
  { intros l' r' L R. rewrite outcome_BinOp, L, R.
    destruct o; try reflexivity; eexists; split; reflexivity. }
  assert (U : forall x',
    outcome (_eval x') module_globals = Returns a ->
    unary_outcome o a (outcome (_eval (UnaryOp o x')) module_globals)).
  { intros x' X. rewrite outcome_UnaryOp, X.
    destruct o; try reflexivity; eexists; split; reflexivity. }
  split; [|split; [|split; [|split; [|split; [|split; [|split; [|split]]]]]]].
  - intro L. rewrite outcome_BinOp, L. reflexivity.
  - intros L R. rewrite outcome_BinOp, L, R. reflexivity.
  - intros L R. split.
    + intro A. rewrite outcome_BinOp, L, R, A. reflexivity.
    + intros f A. rewrite outcome_BinOp, L, R, A. reflexivity.
  - intro X. rewrite outcome_UnaryOp, X. reflexivity.
  - intro X. split.
    + intro A. rewrite outcome_UnaryOp, X, A. reflexivity.
    + intros f A. rewrite outcome_UnaryOp, X, A. reflexivity.
  - apply B.
  - apply U.
  - apply B; reflexivity.
  - apply U; reflexivity.
Qed.

(** *** Purity *)

(** C7: evaluating never changes the store, so evaluating the same input
    again, in the store the first evaluation left, gives the same result. *)
Theorem C7_evaluation_is_repeatable (g : globals) (body : json) (s : pystr) :
  snd (safe_eval s g) = g
  /\ snd (evaluate body g) = g
  /\ safe_eval s (snd (safe_eval s g)) = safe_eval s g
  /\ evaluate body (snd (evaluate body g)) = evaluate body g.
Proof.
  repeat split.
  - apply safe_eval_store.
  - apply evaluate_store.
  - now rewrite safe_eval_store.
  - now rewrite evaluate_store.
Qed.

(** *** Failures at the boundary *)

Lemma evaluate_pair body g : evaluate body g = (outcome (evaluate body) g, g).
Proof.
  unfold outcome. rewrite <- (evaluate_store body g) at 3.
  destruct (evaluate body g); reflexivity.
Qed.

Lemma evaluate_dict_returns items g :
  exists resp, evaluate (JDict items) g = (Returns resp, g).
Proof.
  rewrite evaluate_pair. unfold outcome, evaluate.
  assert (D : exists items',
    (if truthy (JDict items) then JDict items else JDict []) = JDict items')
    by (destruct (truthy (JDict items)); eauto).
  destruct D as [items' ->]. monad. simpl.
  destruct (lookup items' (lit "expr")) as [expr|]; simpl.
  - destruct expr; simpl; eauto.
    destruct (safe_eval (clean s) g) as [[v|e] g1]; simpl; eauto.
    destruct (jsonify_success v s); simpl; eauto.
  - destruct (safe_eval (clean []) g) as [[v|e] g1]; simpl; eauto.
    destruct (jsonify_success v []); simpl; eauto.
Qed.

(** C6: for a request whose expression is a string, the view function always
    returns a response and never lets an exception escape; when the
    evaluation of the expression raises, the response is the failure that
    carries the text of the exception.  No exception escapes either when
    the expression of the request is not a string. *)
Theorem C6_failures_are_returned (g : globals) (items : list (pystr * json))
    (s : pystr) :
  (exists resp, evaluate (JDict items) g = (Returns resp, g))
  /\ (lookup items (lit "expr") = Some (JStr s) ->
      forall e, outcome (safe_eval (clean s)) g = Raises e ->
        evaluate (JDict items) g = (Returns (Failure (str e)), g)).
Proof.
  split; [apply evaluate_dict_returns|].
  intros L e H.
  rewrite evaluate_pair, (outcome_evaluate_str _ _ _ L), H. reflexivity.
Qed.

Lemma clean_empty : clean [] = [].
Proof. reflexivity. Qed.

Context {fw : Framework}.

Lemma route_eval_returns rq body g :
  get_json rq = Returns body -> route_eval rq g = evaluate body g.
Proof. intro G. unfold route_eval. monad. rewrite G. reflexivity. Qed.

Lemma route_eval_raises rq e g :
  get_json rq = Raises e -> route_eval rq g = (Raises e, g).
Proof. intro G. unfold route_eval. monad. rewrite G. reflexivity. Qed.

(** C10, as amended: when [request.get_json()] returns [None] or another
    false value, or a dictionary without ["expr"], or one whose ["expr"] is
    the empty string, the expression is the empty string; the parser rejects
    it and the view function returns the failure response with the text of
    the parser's exception.  When [request.get_json()] raises, as it does
    for a request without a body, the exception leaves the view function:
    the call is outside the [try] block. *)
Theorem C10_empty_expression (g : globals) (rq : http_request) (e : exn)
    (body : json) :
  (get_json rq = Raises e -> route_eval rq g = (Raises e, g))
  /\ (get_json rq = Returns body ->
      ast_parse [] = Raises e ->
      truthy body = false
      \/ (exists items, body = JDict items
            /\ (lookup items (lit "expr") = None
                \/ lookup items (lit "expr") = Some (JStr []))) ->
      route_eval rq g = (Returns (Failure (str e)), g)).
Proof.
  split; [apply route_eval_raises|].
  intros G P B. rewrite (route_eval_returns _ _ _ G).
  assert (E : forall items,
    lookup items (lit "expr") = None
    \/ lookup items (lit "expr") = Some (JStr []) ->
    get (JDict items) (lit "expr") (JStr []) = Returns (JStr [])).
  { intros items [L|L]; simpl; rewrite L; reflexivity. }
  assert (R : forall data,
    get data (lit "expr") (JStr []) = Returns (JStr []) ->
    (expr <- lift (get data (lit "expr") (JStr [])) ;;
     try_except
       (match expr with
        | JStr s => r <- safe_eval (clean s) ;; lift (jsonify_success r s)
        | _ => raise (no_attribute expr "replace")
        end)
       (fun e => ret (Failure (str e)))) g = (Returns (Failure (str e)), g)).
  { intros data D. unfold safe_eval. monad. rewrite D, clean_empty, P.
    reflexivity. }
  unfold evaluate. destruct B as [T|[items [-> L]]].
  - rewrite T. apply R. reflexivity.
  - destruct (truthy (JDict items)) eqn:T.
    + apply R, E, L.
    + apply R. reflexivity.
Qed.

(** *** Type of the result *)

(** C8, as amended: a success response of the view function carries an [int]
    or a [float]; when the evaluator itself returns a [complex], the
    response is a failure, because the number has no JSON form. *)
Theorem C8_success_is_int_or_float (g : globals) (body : json) (s : pystr)
    (v : value) (input : pystr) (re im : float) :
  (outcome (evaluate body) g = Returns (Success v input) ->
   is_int_or_float v = true)
  /\ (outcome (safe_eval (clean s)) g = Returns (VComplex re im) ->
      outcome (evaluate (request s)) g =
      Returns (Failure
                 (lit "Object of type complex is not JSON serializable"))).
Proof.
  split.
  - unfold evaluate. monad.
    destruct (get _ _ _) as [expr|e]; simpl; [|discriminate].
    destruct expr; simpl; try discriminate.
    destruct (safe_eval (clean s0) g) as [[w|e] g1]; simpl; [|discriminate].
    destruct w as [i|x|re' im']; simpl; try destruct (int_repr_error i);
      simpl; intro H; inversion H; reflexivity.
  - intro H. rewrite outcome_evaluate_request, H. reflexivity.
Qed.

(** *** Nodes outside the grammar *)

Lemma same_outside_eval t t' :
  same_outside t t' -> forall g, _eval t g = _eval t' g.
Proof.
  induction 1 as [v|b b' _ IH|l l' o r r' _ IHl _ IHr|o x x' _ IH|cls f f'];
    intro g; simpl; auto; monad.
  - rewrite IHl. destruct (_eval l' g) as [[a|e] g1]; auto.
    rewrite IHr. reflexivity.
  - rewrite IH. reflexivity.
Qed.

Lemma disallowed_raises t g :
  has_disallowed t = true ->
  exists e, outcome (_eval t) g = Raises e
    /\ ((exists cls, e = unsupported_expression cls)
        \/ (exists sub, subexpr sub t /\ has_disallowed sub = false
                        /\ outcome (_eval sub) g = Raises e)).
Proof.
  induction t as [v|body IH|l IHl o r IHr|o x IH|cls fields]; intro D;
    simpl in D.
  - discriminate.
  - change (outcome (_eval (Expression body)) g) with (outcome (_eval body) g).
    destruct (IH D) as [e [E [U|[sub [S [C R]]]]]]; exists e; split; auto.
    right. exists sub. auto using sub_body.
  - rewrite outcome_BinOp.
    destruct (has_disallowed l) eqn:Dl.
    + destruct (IHl eq_refl) as [e [E [U|[sub [S [C R]]]]]]; rewrite E;
        exists e; split; auto.
      right. exists sub. auto using sub_left.
    + destruct (outcome (_eval l) g) as [a|e] eqn:El.
      * destruct (IHr D) as [e [E [U|[sub [S [C R]]]]]]; rewrite E;
          exists e; split; auto.
        right. exists sub. auto using sub_right.
      * exists e. split; auto. right. exists l.
        auto using sub_left, sub_refl.
  - rewrite outcome_UnaryOp.
    destruct (IH D) as [e [E [U|[sub [S [C R]]]]]]; rewrite E; exists e;
      split; auto.
    right. exists sub. auto using sub_operand.
  - exists (unsupported_expression cls). split; [reflexivity|]. left. eauto.
Qed.

(** C1, as amended: when the parse tree of the input has a node outside the
    grammar, the evaluation never returns a value.  The exception is the
    "unsupported expression" error, or else the one raised by a
    sub-expression that has no such node.  The view function answers with
    the failure that carries its text.  What lies inside the nodes outside
    the grammar plays no part in the evaluation. *)
Theorem C1_disallowed_nodes_fail (g : globals) (s : pystr) (t t' : node) :
  (ast_parse s = Returns t ->
   has_disallowed t = true ->
   exists e, outcome (safe_eval s) g = Raises e
     /\ ((exists cls, e = unsupported_expression cls)
         \/ (exists sub, subexpr sub t /\ has_disallowed sub = false
                         /\ outcome (_eval sub) g = Raises e))
     /\ (forall input, clean input = s ->
           evaluate (request input) g = (Returns (Failure (str e)), g)))
  /\ (same_outside t t' -> _eval t' g = _eval t g).
Proof.
  split.
  - intros P D. destruct (disallowed_raises t g D) as [e [E K]].
    assert (Hs : outcome (safe_eval s) g = Raises e).
    { rewrite outcome_safe_eval, P. exact E. }
    exists e. repeat split; auto.
    intros input <-.
    rewrite evaluate_pair, outcome_evaluate_request, Hs. reflexivity.
  - intro So. symmetry. apply same_outside_eval, So.
Qed.

(** *** Division by zero *)

Lemma convert_real_zero b :
  real_zero b = true ->
  exists z, convert_to_double b = Returns z /\ float_is_zero z = true.
Proof.
  destruct b as [i|x|re im]; simpl; try discriminate.
  - destruct i; try discriminate. intros _. exists fzero. auto.
  - destruct x; try discriminate. intros _. eauto.
Qed.

Ltac zero_case :=
  eexists; split; reflexivity.

Lemma truediv_zero a b :
  zero_divisor a b ->
  exists e, op.truediv a b = Raises e /\ exn_class_of e = ZeroDivisionError.
Proof.
  intros [Z C].
  destruct a as [i|x|re im]; destruct b as [j|y|re' im'];
    simpl in *; try discriminate; try contradiction.
  - destruct j; try discriminate. zero_case.
  - destruct C as [x' C]. unfold op.float_binop. simpl. rewrite C. simpl.
    destruct y; try discriminate. zero_case.
  - destruct j; try discriminate. zero_case.
  - destruct y; try discriminate. zero_case.
Qed.

Lemma mod_zero a b :
  zero_divisor a b ->
  exists e, op.mod_ a b = Raises e /\ exn_class_of e = ZeroDivisionError.
Proof.
  intros [Z C].
  destruct a as [i|x|re im]; destruct b as [j|y|re' im'];
    simpl in *; try discriminate; try contradiction.
  - destruct j; try discriminate. zero_case.
  - destruct C as [x' C]. unfold op.float_binop. simpl. rewrite C. simpl.
    destruct y; try discriminate. zero_case.
  - destruct j; try discriminate. zero_case.
  - destruct y; try discriminate. zero_case.
Qed.

Lemma zero_divisor_raises o a b :
  o = Div \/ o = Mod ->
  zero_divisor a b ->
  exists f e, allow_list_lookup (ALLOWED_OPERATORS module_globals) o = Some f
    /\ call f [a; b] = Raises e /\ exn_class_of e = ZeroDivisionError.
Proof.
  intros [->| ->] Z.
  - destruct (truediv_zero a b Z) as [e [E K]].
    exists (Fn2 op.truediv), e. auto.
  - destruct (mod_zero a b Z) as [e [E K]].
    exists (Fn2 op.mod_), e. auto.
Qed.

(** C2, as amended: when the evaluation comes to a [/] or a [%] whose divisor
    is an [int] or [float] zero and whose dividend is an [int] or a [float]
    (one that converts to a double when the two are not both [int]s), it
    raises [ZeroDivisionError], and the view function answers with the
    failure that carries its text. *)
Theorem C2_division_by_zero (t : node) :
  divides_by_zero t ->
  exists e, outcome (_eval t) module_globals = Raises e
    /\ exn_class_of e = ZeroDivisionError
    /\ (forall s, ast_parse (clean s) = Returns t ->
          evaluate (request s) module_globals =
          (Returns (Failure (str e)), module_globals)).
Proof.
  intro D.
  assert (R : exists e, outcome (_eval t) module_globals = Raises e
                        /\ exn_class_of e = ZeroDivisionError).
  { induction D as [l o r a b O El Er Z|l o r _ IH|l o r a El _ IH
                   |o x _ IH|body _ IH].
    - destruct (zero_divisor_raises o a b O Z) as [f [e [L [C K]]]].
      exists e. split; auto. rewrite outcome_BinOp, El, Er, L. exact C.
    - destruct IH as [e [E K]]. exists e. split; auto.
      rewrite outcome_BinOp, E. reflexivity.
    - destruct IH as [e [E K]]. exists e. split; auto.
      rewrite outcome_BinOp, El, E. reflexivity.
    - destruct IH as [e [E K]]. exists e. split; auto.
      rewrite outcome_UnaryOp, E. reflexivity.
    - exact IH. }
  destruct R as [e [E K]]. exists e. repeat split; auto.
  intros s P.
  rewrite evaluate_pair, outcome_evaluate_request, outcome_safe_eval, P, E.
  reflexivity.
Qed.

(** *** Exactness on the integer fragment *)

Lemma Qred_inject_Z z : Qred (inject_Z z) = inject_Z z.
Proof.
  unfold inject_Z, Qred.
  pose proof (Z.ggcd_gcd z 1) as G.
  pose proof (Z.ggcd_correct_divisors z 1) as D.
  destruct (Z.ggcd z 1) as [d [p q]]. simpl in *.
  rewrite Z.gcd_1_r in G. subst d. destruct D as [D1 D2].
  rewrite Z.mul_1_l in D1, D2. subst. reflexivity.
Qed.

Lemma Qred_to_Z q z : (q == inject_Z z)%Q -> Qred q = inject_Z z.
Proof.
  intro E. rewrite (Qred_complete _ _ E). apply Qred_inject_Z.
Qed.

Lemma Qeq_bool_inject_Z_0 z : Qeq_bool (inject_Z z) 0 = (z =? 0).
Proof.
  destruct (z =? 0) eqn:E.
  - apply Z.eqb_eq in E. subst. reflexivity.
  - apply Z.eqb_neq in E. destruct (Qeq_bool (inject_Z z) 0) eqn:B; auto.
    apply Qeq_bool_eq in B. unfold Qeq in B. simpl in B. lia.
Qed.

Lemma Qmod_inject_Z a b : (Qmod (inject_Z a) (inject_Z b) == inject_Z (a mod b))%Q.
Proof.
  unfold Qmod. rewrite <- Zdiv_Qdiv, <- inject_Z_mult.
  unfold Qminus. rewrite <- inject_Z_opp, <- inject_Z_plus.
  replace (a + - (b * (a / b))) with (a mod b)
    by (pose proof (Z_div_mod_eq_full a b); lia).
  reflexivity.
Qed.

Lemma some_eq {A} (a b : A) : Some a = Some b -> a = b.
Proof. congruence. Qed.

Lemma math_binop_int o i j q :
  match o with
  | Add | Sub | Mult | Mod => True
  | Pow => 0 <= j
  | _ => False
  end ->
  math_binop o (inject_Z i) (inject_Z j) = Some q ->
  exists k, q = inject_Z k
    /\ exists f, allow_list_lookup (ALLOWED_OPERATORS module_globals) o = Some f
                 /\ call f [VInt i; VInt j] = Returns (VInt k).
Proof.
  destruct o; intros C M; try contradiction; unfold math_binop in M.
  - apply some_eq in M; subst q.
    exists (i + j). split; [|eexists; split; reflexivity].
    apply Qred_to_Z. now rewrite inject_Z_plus.
  - apply some_eq in M; subst q.
    exists (i - j). split; [|eexists; split; reflexivity].
    apply Qred_to_Z. unfold Qminus, Z.sub.
    now rewrite inject_Z_plus, inject_Z_opp.
  - apply some_eq in M; subst q.
    exists (i * j). split; [|eexists; split; reflexivity].
    apply Qred_to_Z. now rewrite inject_Z_mult.
  - rewrite Qeq_bool_inject_Z_0 in M. destruct (j =? 0) eqn:E; [discriminate|].
    apply some_eq in M; subst q.
    exists (i mod j). split.
    + apply Qred_to_Z, Qmod_inject_Z.
    + eexists; split; [reflexivity|]. simpl. rewrite E. reflexivity.
  - assert (N : (j <? 0) = false) by (apply Z.ltb_ge; exact C).
    unfold is_integer in M. rewrite Qred_inject_Z in M.
    change (Qnum (inject_Z j)) with j in M.
    change (Pos.eqb (Qden (inject_Z j)) 1) with true in M.
    rewrite N, andb_false_r in M. simpl negb in M. simpl andb in M.
    apply some_eq in M; subst q.
    exists (i ^ j). split.
    + apply Qred_to_Z. symmetry. now apply Zpower_Qpower.
    + eexists; split; [reflexivity|]. simpl. rewrite N. reflexivity.
Qed.

Local Arguments Qred : simpl never.


(** *** The percent rewriting *)

Lemma lstrip_split s :
  exists ws, s = ws ++ Str.lstrip s /\ Forall (fun c => Str.isspace c = true) ws.
Proof.
  induction s as [|c s [ws [E W]]]; simpl.
  - exists []. auto.
  - destruct (Str.isspace c) eqn:S.
    + exists (c :: ws). simpl. split; [congruence|auto].
    + exists []. auto.
Qed.

Lemma strip_split s :
  exists before after,
    s = before ++ Str.strip s ++ after
    /\ Forall (fun c => Str.isspace c = true) (before ++ after).
Proof.
  destruct (lstrip_split s) as [ws [E W]].
  destruct (lstrip_split (rev (Str.lstrip s))) as [ws' [E' W']].
  exists ws, (rev ws'). split.
  - unfold Str.strip, Str.rstrip. rewrite <- rev_app_distr, <- E', rev_involutive.
    exact E.
  - apply Forall_app. split; auto.
    apply Forall_forall. intros c I. apply in_rev in I.
    apply (proj1 (Forall_forall _ _) W' c I).
Qed.

Lemma replace_keeps_others s old k c :
  In c s -> c = old \/ In c (Str.replace s old [] k).
Proof.
  revert k. induction s as [|d s IH]; intros k I; [contradiction|].
  simpl. destruct k as [[|n]|]; auto.
  - destruct (N.eqb d old) eqn:E.
    + destruct I as [->|I]; [left; now apply N.eqb_eq|]. simpl. now apply IH.
    + destruct I as [->|I]; [right; now left|].
      destruct (IH (Some (S n)) I); auto. right. now right.
  - destruct (N.eqb d old) eqn:E.
    + destruct I as [->|I]; [left; now apply N.eqb_eq|]. simpl. now apply IH.
    + destruct I as [->|I]; [right; now left|].
      destruct (IH None I); auto. right. now right.
Qed.

Lemma isdigit_all f s c :
  Str.isdigit f s = true -> In c s -> Str.isdigit_char f c = true.
Proof.
  intros D I. destruct s; [contradiction|]. unfold Str.isdigit in D.
  apply (proj1 (forallb_forall _ _) D c I).
Qed.

Lemma replace_absent s old new :
  ~ In old s -> Str.replace s old new None = s.
Proof.
  induction s as [|c s IH]; intro A; simpl; auto.
  destruct (N.eqb c old) eqn:E.
  - apply N.eqb_eq in E. subst. exfalso. apply A. now left.
  - f_equal. apply IH. intro I. apply A. now right.
Qed.

Lemma replace_app s1 s2 old new :
  Str.replace (s1 ++ s2) old new None =
  Str.replace s1 old new None ++ Str.replace s2 old new None.
Proof.
  induction s1 as [|c s1 IH]; simpl; auto.
  destruct (N.eqb c old); rewrite IH; [apply app_assoc|reflexivity].
Qed.

Lemma startswith_nil s : Str.startswith s [] = true.
Proof. destruct s; reflexivity. Qed.

Lemma endswith_last p c : Str.endswith (p ++ [c]) [c] = true.
Proof.
  unfold Str.endswith. rewrite rev_app_distr. simpl.
  now rewrite N.eqb_refl, startswith_nil.
Qed.

Lemma endswith_inv s c :
  Str.endswith s [c] = true -> exists p, s = p ++ [c].
Proof.
  unfold Str.endswith. destruct s as [|d s'] using rev_ind; simpl.
  - discriminate.
  - rewrite rev_app_distr. simpl. intro E. apply andb_prop in E.
    destruct E as [E _]. apply N.eqb_eq in E. subst. eauto.
Qed.

(** In a prefix that passes the digit test no character is one of the two
    signs the view function replaces. *)
Lemma numeric_prefix_chars p c :
  Str.isdigit unicode_isdigit
    (Str.replace (Str.strip p) 46%N [] (Some 1%nat)) = true ->
  In c p ->
  Str.isspace c = true \/ c = 46%N \/ Str.isdigit_char unicode_isdigit c = true.
Proof.
  intros D I. destruct (strip_split p) as [before [after [E W]]].
  rewrite E in I. rewrite Forall_app in W. destruct W as [Wb Wa].
  apply in_app_or in I. destruct I as [I|I].
  { left. apply (proj1 (Forall_forall _ _) Wb c I). }
  apply in_app_or in I. destruct I as [I|I].
  - destruct (replace_keeps_others _ 46%N (Some 1%nat) c I) as [->|I']; auto.
    right. right. apply (isdigit_all _ _ _ D I').
  - left. apply (proj1 (Forall_forall _ _) Wa c I).
Qed.

Lemma numeric_prefix_unchanged p :
  Str.isdigit unicode_isdigit
    (Str.replace (Str.strip p) 46%N [] (Some 1%nat)) = true ->
  Str.replace (Str.replace p times_sign (lit "*") None)
              division_sign (lit "/") None = p.
Proof.
  intro D.
  assert (A : forall c, c = times_sign \/ c = division_sign -> ~ In c p).
  { intros c C I.
    destruct (numeric_prefix_chars p c D I) as [S|[S|S]];
      destruct C as [->| ->]; vm_compute in S; discriminate. }
  rewrite (replace_absent p times_sign); [|apply A; now left].
  apply replace_absent, A. now right.
Qed.

(** C5, as amended: an input that itself ends with [%], whose part before the
    [%], once stripped of surrounding white space and of its first decimal
    point, is a non-empty run of digits, is rewritten to that part between
    ["("] and [")/100"]; an input that does not end with [%] is passed on
    with only the two signs replaced; and with the tree of [(50)/100] the
    input [50%] evaluates to 0.5. *)
Theorem C5_percent_rewriting (p s : pystr) :
  (Str.isdigit unicode_isdigit
     (Str.replace (Str.strip p) 46%N [] (Some 1%nat)) = true ->
   clean (p ++ lit "%") = lit "(" ++ p ++ lit ")/100")
  /\ (Str.endswith s (lit "%") = false ->
      clean s = Str.replace (Str.replace s times_sign (lit "*") None)
                            division_sign (lit "/") None)
  /\ float_exact one_half = Some (1 # 2)%Q
  /\ (ast_parse (lit "(50)/100") =
        Returns (Expression (BinOp (Num (VInt 50)) Div (Num (VInt 100)))) ->
      outcome (evaluate (request (lit "50%"))) module_globals =
        Returns (Success (VFloat one_half) (lit "50%"))).
Proof.
  assert (C : forall p',
    Str.isdigit unicode_isdigit
      (Str.replace (Str.strip p') 46%N [] (Some 1%nat)) = true ->
    clean (p' ++ lit "%") = lit "(" ++ p' ++ lit ")/100").
  { intros p' D'. unfold clean.
    rewrite !replace_app, (numeric_prefix_unchanged p' D').
    change (Str.replace (Str.replace (lit "%") times_sign (lit "*") None)
              division_sign (lit "/") None) with [37%N].
    change (lit "%") with [37%N].
    rewrite endswith_last. unfold Str.but_last. rewrite removelast_last, D'.
    reflexivity. }
  split; [apply C|]. split; [|split; [reflexivity|]].
  - intro E. unfold clean.
    set (cleaned := Str.replace (Str.replace s _ _ _) _ _ _).
    destruct (Str.endswith cleaned (lit "%")) eqn:E'; [|reflexivity].
    exfalso. destruct (endswith_inv _ _ E') as [q Q].
    revert E. unfold Str.endswith.
    assert (L : exists q', s = q' ++ [37%N]).
    { subst cleaned. revert q Q. clear.
      induction s as [|d s' _] using rev_ind; intros q Q.
      - destruct q; discriminate.
      - exists s'. f_equal. rewrite !replace_app in Q. simpl in Q.
        destruct (N.eqb d times_sign) eqn:T.
        + simpl in Q. apply app_inj_tail in Q. destruct Q; discriminate.
        + simpl in Q. destruct (N.eqb d division_sign) eqn:V; simpl in Q;
            apply app_inj_tail in Q; destruct Q as [_ Q];
            [discriminate|now rewrite Q]. }
    destruct L as [q' ->]. rewrite rev_app_distr. simpl.
    rewrite startswith_nil. discriminate.
  - intro P. rewrite outcome_evaluate_request.
    replace (clean (lit "50%")) with (lit "(50)/100")
      by (symmetry; apply (C (lit "50")); reflexivity).
    rewrite outcome_safe_eval, P. reflexivity.
Qed.

End Properties.

(** ** Further properties of the evaluator *)

Section EvaluatorProperties.
Context {rt : Runtime}.

Local Arguments Qred : simpl never.

(** X1: the evaluator fails closed.  When it returns a value, the tree is
    made of numbers and of the six binary and two unary operators of the
    allow-list, each used with its own number of operands. *)
Theorem X1_success_only_inside_the_grammar (t : node) (v : value) :
  outcome (_eval t) module_globals = Returns v -> in_grammar t = true.
Proof.
  revert v.
  induction t as [w|body IH|l IHl o r IHr|o x IH|cls fields]; intros v H.
  - reflexivity.
  - apply (IH v H).
  - rewrite outcome_BinOp in H. simpl.
    destruct (outcome (_eval l) module_globals) as [a|e]; [|discriminate].
    destruct (outcome (_eval r) module_globals) as [b|e]; [|discriminate].
    rewrite (IHl a eq_refl), (IHr b eq_refl).
    destruct o; simpl in H; try discriminate; reflexivity.
  - rewrite outcome_UnaryOp in H. simpl.
    destruct (outcome (_eval x) module_globals) as [a|e]; [|discriminate].
    rewrite (IH a eq_refl).
    destruct o; simpl in H; try discriminate; reflexivity.
  - discriminate H.
Qed.

(** X2: an expression over integer literals with [+], [-], [*], [%] and the
    unary operators either has a mathematical value, and the evaluator
    returns it as an [int], or has none, and the evaluator raises the
    [ZeroDivisionError] of a zero modulus.  It fails in no other way. *)
Theorem X2_integer_trees_return_or_divide_by_zero (t : node) :
  int_tree t = true ->
  match math_value t with
  | Some q =>
      exists i, q = inject_Z i
                /\ outcome (_eval t) module_globals = Returns (VInt i)
  | None => outcome (_eval t) module_globals = Raises integer_modulo_by_zero
  end.
Proof.
  induction t as [w|body IH|l IHl o r IHr|o x IH|cls fields]; intro T;
    simpl in T.
  - destruct w; try discriminate. simpl. eauto.
  - apply (IH T).
  - apply andb_prop in T. destruct T as [T To].
    apply andb_prop in T. destruct T as [Tl Tr].
    specialize (IHl Tl). specialize (IHr Tr).
    rewrite outcome_BinOp. simpl math_value.
    destruct (math_value l) as [a|].
    + destruct IHl as [i [-> El]]. rewrite El.
      destruct (math_value r) as [b|].
      * destruct IHr as [j [-> Er]]. rewrite Er.
        destruct (math_binop o (inject_Z i) (inject_Z j)) as [q|] eqn:B.
        -- assert (C : match o with
                       | Add | Sub | Mult | Mod => True
                       | Pow => 0 <= j
                       | _ => False
                       end) by (destruct o; try discriminate; exact I).
           destruct (math_binop_int o i j q C B) as [k [-> [f [L K]]]].
           exists k. rewrite L. auto.
        -- destruct o; try discriminate.
           unfold math_binop in B. rewrite Qeq_bool_inject_Z_0 in B.
           destruct (j =? 0) eqn:Z; [|discriminate].
           simpl. rewrite Z. reflexivity.
      * rewrite IHr. reflexivity.
    + rewrite IHl. reflexivity.
  - apply andb_prop in T. destruct T as [Tx To]. specialize (IH Tx).
    rewrite outcome_UnaryOp.
    destruct o; try discriminate; simpl math_value.
    + destruct (math_value x) as [a|].
      * destruct IH as [i [-> E]]. rewrite E. exists i. auto.
      * rewrite IH. reflexivity.
    + destruct (math_value x) as [a|]; simpl.
      * destruct IH as [i [-> E]]. rewrite E. exists (- i). split.
        -- apply Qred_to_Z. now rewrite inject_Z_opp.
        -- reflexivity.
      * rewrite IH. reflexivity.
  - discriminate.
Qed.

Lemma int_true_divide_float a b v :
  int_true_divide a b = Returns v -> exists x, v = VFloat x.
Proof.
  unfold int_true_divide.
  destruct (b =? 0); [discriminate|].
  match goal with
  | |- match ?q with _ => _ end = _ -> _ => destruct q
  end; intro H; inversion H; eauto.
Qed.

(** X3: true division never returns an [int].  When the operands of [/] are
    [int]s or [float]s and the division returns, the result is a [float],
    also when the quotient of two [int]s is exact. *)
Theorem X3_true_division_returns_a_float (l r : node) (a b v : value) :
  outcome (_eval l) module_globals = Returns a ->
  outcome (_eval r) module_globals = Returns b ->
  is_complex a = false ->
  is_complex b = false ->
  outcome (_eval (BinOp l Div r)) module_globals = Returns v ->
  exists x, v = VFloat x.
Proof.
  intros El Er Ca Cb. rewrite outcome_BinOp, El, Er. simpl.
  destruct a as [i|x|re im]; destruct b as [j|y|re' im']; try discriminate;
    simpl; unfold op.float_binop, op.float_div; simpl.
  - apply int_true_divide_float.
  - destruct (float_of_int i); simpl; [|discriminate].
    destruct (float_is_zero y); [discriminate|]. intro H. inversion H. eauto.
  - destruct (float_of_int j) as [y|e]; simpl; [|discriminate].
    destruct (float_is_zero y); [discriminate|]. intro H. inversion H. eauto.
  - destruct (float_is_zero y); [discriminate|]. intro H. inversion H. eauto.
Qed.

Lemma SFopp_involutive x : SFopp (SFopp x) = x.
Proof. destruct x; simpl; try rewrite negb_involutive; reflexivity. Qed.

(** X4: the unary operators.  Unary plus is transparent, and two unary
    minuses cancel, on every operand: the value, or the exception, is that
    of the operand. *)
Theorem X4_unary_plus_and_double_minus (x : node) :
  outcome (_eval (UnaryOp UAdd x)) module_globals
    = outcome (_eval x) module_globals
  /\ outcome (_eval (UnaryOp USub (UnaryOp USub x))) module_globals
     = outcome (_eval x) module_globals.
Proof.
  split.
  - rewrite outcome_UnaryOp.
    destruct (outcome (_eval x) module_globals); reflexivity.
  - rewrite !outcome_UnaryOp.
    destruct (outcome (_eval x) module_globals) as [a|e]; [|reflexivity].
    destruct a; simpl; rewrite ?SFopp_involutive, ?Z.opp_involutive;
      reflexivity.
Qed.

(** X5: on [int]s, [%] is the floored modulo.  With a non-zero divisor it
    returns a remainder that has the sign of the divisor and is smaller
    than it in absolute value, and that differs from the dividend by a
    multiple of the divisor. *)
Theorem X5_integer_modulo_takes_the_sign_of_the_divisor
    (l r : node) (a b : Z) :
  outcome (_eval l) module_globals = Returns (VInt a) ->
  outcome (_eval r) module_globals = Returns (VInt b) ->
  b <> 0 ->
  exists m q,
    outcome (_eval (BinOp l Mod r)) module_globals = Returns (VInt m)
    /\ a = b * q + m
    /\ (0 <= m < b \/ b < m <= 0).
Proof.
  intros El Er Nz. exists (a mod b), (a / b).
  rewrite outcome_BinOp, El, Er. simpl.
  destruct (b =? 0) eqn:E; [apply Z.eqb_eq in E; contradiction|].
  split; [reflexivity|]. split; [apply Z_div_mod_eq_full|].
  destruct (Z_lt_le_dec 0 b) as [P|P].
  - left. apply Z.mod_pos_bound. exact P.
  - right. apply Z.mod_neg_bound. lia.
Qed.

(** *** What the view function passes to the parser *)

Lemma replace_removes s old new :
  ~ In old new -> ~ In old (Str.replace s old new None).
Proof.
  intro N. induction s as [|c s IH]; simpl; auto.
  destruct (N.eqb c old) eqn:E.
  - intro I. apply in_app_or in I. tauto.
  - intros [->|I]; [rewrite N.eqb_refl in E; discriminate|tauto].
Qed.

Lemma replace_keeps_absent s old new c :
  ~ In c s -> ~ In c new -> ~ In c (Str.replace s old new None).
Proof.
  intros A N. induction s as [|d s IH]; simpl; auto.
  destruct (N.eqb d old).
  - intro I. apply in_app_or in I. destruct I as [I|I]; [tauto|].
    apply IH; [|exact I]. intro J. apply A. now right.
  - intros [->|I]; [apply A; now left|].
    apply IH; [|exact I]. intro J. apply A. now right.
Qed.

Lemma replace_keeps_present s old new c :
  In c s -> c <> old -> In c (Str.replace s old new None).
Proof.
  intros I N. induction s as [|d s IH]; [contradiction|]. simpl.
  destruct (N.eqb d old) eqn:E.
  - apply in_or_app. right. destruct I as [->|I]; [|auto].
    apply N.eqb_eq in E. contradiction.
  - destruct I as [->|I]; [now left|right; auto].
Qed.

Lemma replace_puts_new s old new c :
  In old s -> In c new -> In c (Str.replace s old new None).
Proof.
  intros I N. induction s as [|d s IH]; [contradiction|]. simpl.
  destruct (N.eqb d old) eqn:E.
  - apply in_or_app. now left.
  - destruct I as [->|I]; [rewrite N.eqb_refl in E; discriminate|].
    right. auto.
Qed.

Lemma in_removelast (c : char) l : In c (removelast l) -> In c l.
Proof.
  induction l as [|d l IH]; simpl; auto.
  destruct l; [contradiction|]. intros [->|I]; [now left|right; auto].
Qed.

Lemma replaced_has_no_sign s :
  ~ In times_sign (replaced s) /\ ~ In division_sign (replaced s).
Proof.
  unfold replaced. split.
  - apply replace_keeps_absent.
    + apply replace_removes. vm_compute. intuition discriminate.
    + vm_compute. intuition discriminate.
  - apply replace_removes. vm_compute. intuition discriminate.
Qed.

(** X7: the parser never sees the signs [×] and [÷]: whatever the input,
    neither occurs in the string the view function passes to [safe_eval]. *)
Theorem X7_no_sign_reaches_the_parser (s : pystr) :
  ~ In times_sign (clean s) /\ ~ In division_sign (clean s).
Proof.
  destruct (replaced_has_no_sign s) as [T D].
  unfold clean. fold (replaced s).
  destruct (Str.endswith (replaced s) (lit "%") && _); [|tauto].
  split; intro I; apply in_app_or in I; destruct I as [I|I];
    try (vm_compute in I; intuition discriminate);
    apply in_app_or in I; destruct I as [I|I];
    try (vm_compute in I; intuition discriminate);
    apply in_removelast in I; tauto.
Qed.

Lemma replaced_app s1 s2 : replaced (s1 ++ s2) = replaced s1 ++ replaced s2.
Proof. unfold replaced. now rewrite !replace_app. Qed.

Lemma replaced_ends_with_percent s :
  Str.endswith (replaced s) (lit "%") = true -> exists q, s = q ++ lit "%".
Proof.
  intro E. destruct (endswith_inv _ _ E) as [p P]. clear E.
  destruct s as [|d s' _] using rev_ind.
  - destruct p; discriminate.
  - exists s'. f_equal. rewrite replaced_app in P.
    unfold replaced at 2 in P. simpl in P.
    destruct (N.eqb d times_sign); simpl in P.
    + apply app_inj_tail in P. destruct P; discriminate.
    + destruct (N.eqb d division_sign); simpl in P;
        apply app_inj_tail in P; destruct P as [_ P];
        [discriminate|now rewrite P].
Qed.

(** X8: the percent rewriting is applied to nothing but a number followed by
    [%].  When the view function rewrites its input, the input is a string
    [p] followed by [%], every character of [p] is white space, a digit or
    a decimal point, [p] passes the digit test, and the result is [p]
    between ["("] and [")/100"]: a signed percentage such as [-50%] is
    passed on as it is. *)
Theorem X8_only_numbers_are_rewritten (s : pystr) :
  clean s <> replaced s ->
  exists p,
    s = p ++ lit "%"
    /\ Str.isdigit unicode_isdigit
         (Str.replace (Str.strip p) 46%N [] (Some 1%nat)) = true
    /\ (forall c, In c p ->
          Str.isspace c = true \/ c = 46%N
          \/ Str.isdigit_char unicode_isdigit c = true)
    /\ clean s = lit "(" ++ p ++ lit ")/100".
Proof.
  intro R. unfold clean in R |- *. fold (replaced s) in R |- *.
  destruct (Str.endswith (replaced s) (lit "%")) eqn:E;
    [|exfalso; apply R; reflexivity].
  destruct (Str.isdigit _ _) eqn:D; [|exfalso; apply R; reflexivity].
  clear R. simpl andb. cbv iota.
  destruct (replaced_ends_with_percent s E) as [q ->].
  rewrite replaced_app in D |- *.
  change (replaced (lit "%")) with [37%N] in D |- *.
  unfold Str.but_last in D |- *. rewrite removelast_last in D |- *.
  assert (C : forall c, In c (replaced q) ->
            Str.isspace c = true \/ c = 46%N
            \/ Str.isdigit_char unicode_isdigit c = true)
    by (intros c I; apply (numeric_prefix_chars _ c D I)).
  assert (T : ~ In times_sign q).
  { intro I.
    assert (J : In 42%N (replaced q)).
    { unfold replaced. apply replace_keeps_present; [|discriminate].
      apply (replace_puts_new _ _ _ _ I). now left. }
    destruct (C _ J) as [H|[H|H]]; vm_compute in H; discriminate. }
  assert (V : ~ In division_sign q).
  { intro I.
    assert (J : In 47%N (replaced q)).
    { unfold replaced. apply (replace_puts_new _ division_sign); [|now left].
      apply replace_keeps_present; [exact I|discriminate]. }
    destruct (C _ J) as [H|[H|H]]; vm_compute in H; discriminate. }
  assert (Q : replaced q = q).
  { unfold replaced. rewrite (replace_absent q times_sign _ T).
    apply replace_absent, V. }
  rewrite Q in *. exists q. auto.
Qed.

(** *** What the view function answers *)

(** X9: a success response carries the value of the cleaned expression and
    echoes the expression as it was sent, not as it was cleaned. *)
Theorem X9_success_echoes_the_input (g : globals) (body : json)
    (v : value) (input : pystr) :
  outcome (evaluate body) g = Returns (Success v input) ->
  get (if truthy body then body else JDict []) (lit "expr") (JStr [])
    = Returns (JStr input)
  /\ outcome (safe_eval (clean input)) g = Returns v.
Proof.
  unfold evaluate. monad.
  destruct (get _ _ _) as [expr|e]; simpl; [|discriminate].
  destruct expr; simpl; try discriminate.
  destruct (safe_eval (clean s) g) as [[w|e] g1] eqn:Hs; simpl;
    [|discriminate].
  destruct w as [i|x|re im]; simpl; try destruct (int_repr_error i); simpl;
    intro H; inversion H; subst; rewrite Hs; auto.
Qed.

Context {fw : Framework}.

(** X10: the exceptions that escape the view function.  An exception leaves
    [evaluate] exactly when [request.get_json()] raises it, or when
    [request.get_json()] returns a value that is neither a dictionary nor
    false (a non-empty array or string, a non-zero number, [true]) and the
    exception is the [AttributeError] of [data.get]; everything else is
    answered with a response. *)
Theorem X10_escaping_exceptions (g : globals) (rq : http_request) (e : exn) :
  outcome (route_eval rq) g = Raises e
  <-> get_json rq = Raises e
      \/ (exists body, get_json rq = Returns body
            /\ truthy body = true
            /\ (forall items, body <> JDict items)
            /\ e = no_attribute body "get").
Proof.
  assert (F : forall body, truthy body = false ->
              outcome (evaluate body) g = outcome (evaluate (JDict [])) g).
  { intros body T. unfold outcome, evaluate. rewrite T. reflexivity. }
  assert (D : forall items e', outcome (evaluate (JDict items)) g <> Raises e').
  { intros items e' H. destruct (evaluate_dict_returns items g) as [resp R].
    unfold outcome in H. rewrite R in H. discriminate. }
  assert (N : forall body, truthy body = true ->
              (forall items, body <> JDict items) ->
              outcome (evaluate body) g = Raises (no_attribute body "get")).
  { intros body T ND. unfold evaluate. rewrite T. monad.
    destruct body; try reflexivity. exfalso. apply (ND items). reflexivity. }
  unfold outcome, route_eval. monad.
  destruct (get_json rq) as [body|e0] eqn:G; simpl.
  - fold (outcome (evaluate body) g). split.
    + intro H. right. exists body. split; [reflexivity|].
      destruct (truthy body) eqn:T.
      * assert (ND : forall items, body <> JDict items)
          by (intros items ->; apply (D items e H)).
        split; [reflexivity|]. split; [exact ND|].
        rewrite (N body T ND) in H. now inversion H.
      * rewrite (F body T) in H. exfalso. apply (D [] e H).
    + intros [H|[body' [B [T [ND ->]]]]]; [discriminate|].
      inversion B. subst body'. apply (N body T ND).
  - split.
    + intro H. left. now inversion H.
    + intros [H|[body [B _]]]; [now inversion H|discriminate].
Qed.

(** *** Commutativity *)

Lemma SFadd_comm x y : SFadd prec emax x y = SFadd prec emax y x.
Proof.
  destruct x as [sx|sx| |sx mx ex]; destruct y as [sy|sy| |sy my ey];
    try reflexivity; try (destruct sx, sy; reflexivity).
  unfold SFadd. rewrite (Z.min_comm ex ey). f_equal. apply Z.add_comm.
Qed.

Lemma SFmul_comm x y : SFmul prec emax x y = SFmul prec emax y x.
Proof.
  destruct x as [sx|sx| |sx mx ex]; destruct y as [sy|sy| |sy my ey];
    try reflexivity; try (destruct sx, sy; reflexivity).
  unfold SFmul. now rewrite (xorb_comm sx sy), (Pos.mul_comm mx my),
    (Z.add_comm ex ey).
Qed.

Lemma add_comm_real a b :
  is_complex a = false -> is_complex b = false -> op.add a b = op.add b a.
Proof.
  destruct a as [i|x|re im]; destruct b as [j|y|re' im']; try discriminate;
    intros _ _; simpl; unfold op.float_binop; simpl.
  - now rewrite Z.add_comm.
  - destruct (float_of_int i); simpl; [now rewrite SFadd_comm|reflexivity].
  - destruct (float_of_int j); simpl; [now rewrite SFadd_comm|reflexivity].
  - now rewrite SFadd_comm.
Qed.

Lemma mul_comm_real a b :
  is_complex a = false -> is_complex b = false -> op.mul a b = op.mul b a.
Proof.
  destruct a as [i|x|re im]; destruct b as [j|y|re' im']; try discriminate;
    intros _ _; simpl; unfold op.float_binop; simpl.
  - now rewrite Z.mul_comm.
  - destruct (float_of_int i); simpl; [now rewrite SFmul_comm|reflexivity].
  - destruct (float_of_int j); simpl; [now rewrite SFmul_comm|reflexivity].
  - now rewrite SFmul_comm.
Qed.

(** X6: [+] and [*] commute on [int]s and [float]s, rounding and
    conversion errors included: when both operands evaluate to such
    numbers, swapping them changes neither the value nor the exception. *)
Theorem X6_addition_and_multiplication_commute (l r : node) (a b : value) :
  outcome (_eval l) module_globals = Returns a ->
  outcome (_eval r) module_globals = Returns b ->
  is_complex a = false ->
  is_complex b = false ->
  outcome (_eval (BinOp l Add r)) module_globals
    = outcome (_eval (BinOp r Add l)) module_globals
  /\ outcome (_eval (BinOp l Mult r)) module_globals
     = outcome (_eval (BinOp r Mult l)) module_globals.
Proof.
  intros El Er Ca Cb. rewrite !outcome_BinOp, El, Er. simpl. split.
  - apply add_comm_real; assumption.
  - apply mul_comm_real; assumption.
Qed.

End EvaluatorProperties.

(** ** Properties of the four-operation API *)

Section CalculatorProperties.
Context {cv : Calculator.Conversions}.

Import Calculator.

Lemma pystr_eqb_eq a b : pystr_eqb a b = true -> a = b.
Proof.
  unfold pystr_eqb. destruct (list_eq_dec N.eq_dec a b); [auto|discriminate].
Qed.

Lemma is_operation_eq operation name :
  is_operation operation name = true -> operation = JStr (lit name).
Proof.
  destruct operation; simpl; try discriminate.
  intro H. now rewrite (pystr_eqb_eq _ _ H).
Qed.

Lemma subscript_caught data key e :
  subscript data key = Raises e -> caught e = true.
Proof.
  destruct data; simpl; try (intro H; inversion H; reflexivity).
  destruct (lookup items (lit key)); intro H; inversion H; reflexivity.
Qed.

Lemma float_of_int_raises i e :
  float_of_int i = Raises e ->
  e = Exn OverflowError (lit "int too large to convert to float").
Proof.
  unfold float_of_int.
  destruct (binary_normalize prec emax i 0 false); intro H; inversion H;
    reflexivity.
Qed.

Lemma to_float_raises x e :
  to_float x = Raises e ->
  caught e = true
  \/ e = Exn OverflowError (lit "int too large to convert to float").
Proof.
  destruct x; simpl; try (intro H; inversion H; left; reflexivity).
  - intro H. right. apply (float_of_int_raises _ _ H).
  - destruct (float_of_str s); intro H; inversion H. left. reflexivity.
Qed.

(** The [try] block in two steps: the two numbers, then the operation. *)
Lemma compute_operands data :
  compute data =
  (xy <-? operands data ;
   operation <-? subscript data "operation" ;
   if is_operation operation "add"
   then Returns (Result (SFadd prec emax (fst xy) (snd xy)), 200)
   else if is_operation operation "subtract"
   then Returns (Result (SFsub prec emax (fst xy) (snd xy)), 200)
   else if is_operation operation "multiply"
   then Returns (Result (SFmul prec emax (fst xy) (snd xy)), 200)
   else if is_operation operation "divide"
   then
     if float_is_zero (snd xy) then Returns division_by_zero
     else Returns (Result (SFdiv prec emax (fst xy) (snd xy)), 200)
   else Returns invalid_operation).
Proof.
  unfold compute, operands.
  destruct (subscript data "num1") as [a|e]; simpl; auto.
  destruct (to_float a) as [x|e]; simpl; auto.
  destruct (subscript data "num2") as [b|e]; simpl; auto.
  destruct (to_float b) as [y|e]; simpl; auto.
Qed.

Ltac branches :=
  repeat match goal with
         | |- context [if ?c then _ else _] => destruct c eqn:?
         end.

(** X11: the division guard.  The answer is the "division by zero" error,
    with status 400, exactly when both numbers convert, the operation is
    ["divide"] and the second number is a zero. *)
Theorem X11_calculate_division_by_zero (data : json) :
  fst (calculate data) = Returns division_by_zero
  <-> exists num1 num2,
        operands data = Returns (num1, num2)
        /\ subscript data "operation" = Returns (JStr (lit "divide"))
        /\ float_is_zero num2 = true.
Proof.
  unfold calculate. rewrite compute_operands. split.
  - destruct (operands data) as [[x y]|e]; simpl.
    + destruct (subscript data "operation") as [o|e]; simpl.
      * destruct (is_operation o "add"); [discriminate|].
        destruct (is_operation o "subtract"); [discriminate|].
        destruct (is_operation o "multiply"); [discriminate|].
        destruct (is_operation o "divide") eqn:D; [|discriminate].
        destruct (float_is_zero y) eqn:Z; [|discriminate].
        intros _. exists x, y. rewrite (is_operation_eq _ _ D). auto.
      * destruct (caught e); discriminate.
    + destruct (caught e); discriminate.
  - intros [x [y [O [S Z]]]]. rewrite O. simpl. rewrite S. simpl.
    rewrite Z. reflexivity.
Qed.

Lemma operands_raises data e :
  operands data = Raises e ->
  caught e = true
  \/ e = Exn OverflowError (lit "int too large to convert to float").
Proof.
  unfold operands. intro C.
  destruct (subscript data "num1") as [a|e1] eqn:S1; simpl in C;
    [|inversion C; subst; left; apply (subscript_caught _ _ _ S1)].
  destruct (to_float a) as [x|e1] eqn:F1; simpl in C;
    [|inversion C; subst; apply (to_float_raises _ _ F1)].
  destruct (subscript data "num2") as [b|e1] eqn:S2; simpl in C;
    [|inversion C; subst; left; apply (subscript_caught _ _ _ S2)].
  destruct (to_float b) as [y|e1] eqn:F2; simpl in C;
    [|inversion C; subst; apply (to_float_raises _ _ F2)].
  discriminate.
Qed.

(** What escapes the [try] block on the decoded body [data]: an exception
    of the conversion of the two numbers that the [except] clause does not
    list. *)
Lemma calculate_raises data e :
  fst (calculate data) = Raises e
  <-> operands data = Raises e /\ caught e = false.
Proof.
  unfold calculate. rewrite compute_operands.
  destruct (operands data) as [[x y]|e0]; simpl.
  - split; [|intros [H _]; discriminate].
    destruct (subscript data "operation") as [o|e1] eqn:S; simpl.
    + branches; discriminate.
    + rewrite (subscript_caught _ _ _ S). discriminate.
  - destruct (caught e0) eqn:K; simpl.
    + split; [discriminate|]. intros [H K']. inversion H. subst.
      rewrite K in K'. discriminate.
    + split.
      * intro H. inversion H. subst. auto.
      * intros [H _]. inversion H. reflexivity.
Qed.

Context {fw : Framework}.

(** X12: the exceptions that escape the view function.  An exception leaves
    [calculate] exactly when the [except] clause does not list its class
    and either [request.get_json()] raises it or the conversion of one of
    the two numbers does.  The second is always the [OverflowError] of
    [float()] on an [int] beyond the range of doubles; the first includes
    the framework's 400 and 415 errors for a body that is missing or is not
    JSON.  Nothing is printed then. *)
Theorem X12_calculate_escaping_exceptions (rq : http_request) (e : exn) :
  (fst (route_calculate rq) = Raises e
   <-> caught e = false
       /\ (get_json rq = Raises e
           \/ exists data, get_json rq = Returns data
                           /\ operands data = Raises e))
  /\ (forall data, operands data = Raises e -> caught e = false ->
        e = Exn OverflowError (lit "int too large to convert to float"))
  /\ (get_json rq = Raises e ->
      exn_class_of e = BadRequest \/ exn_class_of e = UnsupportedMediaType ->
      route_calculate rq = (Raises e, []))
  /\ (forall data i,
        get_json rq = Returns data ->
        subscript data "num1" = Returns (JInt i) ->
        float_of_int i = Raises e ->
        route_calculate rq = (Raises e, [])).
Proof.
  split; [|split; [|split]].
  - unfold route_calculate. destruct (get_json rq) as [data|e0] eqn:G.
    + rewrite calculate_raises. split.
      * intros [O K]. split; [exact K|]. right. exists data. auto.
      * intros [K [H|[data' [B O]]]]; [discriminate|].
        inversion B. subst. auto.
    + destruct (caught e0) eqn:K; simpl.
      * split; [discriminate|].
        intros [K' [H|[data [B _]]]]; [|discriminate].
        inversion H. subst. rewrite K in K'. discriminate.
      * split.
        -- intro H. inversion H. subst. auto.
        -- intros [_ [H|[data [B _]]]]; [|discriminate].
           inversion H. reflexivity.
  - intros data O K. destruct (operands_raises _ _ O) as [H|H]; [|exact H].
    rewrite H in K. discriminate.
  - intros G C. unfold route_calculate. rewrite G.
    destruct e as [c t]. simpl in C. destruct C as [-> | ->]; reflexivity.
  - intros data i G S F. unfold route_calculate, calculate, compute.
    rewrite G, S. simpl. rewrite F. simpl.
    rewrite (float_of_int_raises _ _ F). reflexivity.
Qed.

(** X13: status and body agree.  A response with a result has status 200,
    its result is the sum, difference, product or quotient of the two
    converted numbers, and the divisor of a quotient is not zero; a response
    with an error has status 400 and is one of the three error responses. *)
Theorem X13_calculate_responses (data : json) (bd : body) (status : Z) :
  fst (calculate data) = Returns (bd, status) ->
  match bd with
  | Result r =>
      status = 200
      /\ exists num1 num2,
           operands data = Returns (num1, num2)
           /\ (r = SFadd prec emax num1 num2
               \/ r = SFsub prec emax num1 num2
               \/ r = SFmul prec emax num1 num2
               \/ (r = SFdiv prec emax num1 num2
                   /\ float_is_zero num2 = false))
  | Error message =>
      status = 400
      /\ ((bd, status) = division_by_zero
          \/ (bd, status) = invalid_operation
          \/ (bd, status) = invalid_input)
  end.
Proof.
  unfold calculate. rewrite compute_operands.
  destruct (operands data) as [[x y]|e]; simpl.
  - destruct (subscript data "operation") as [o|e]; simpl.
    + branches; intro H; inversion H; subst; try (split; [reflexivity|]);
        try (exists x, y; split; [reflexivity|]); auto 6.
    + destruct (caught e); intro H; inversion H; subst; auto.
  - destruct (caught e); intro H; inversion H; subst; auto.
Qed.

(** X14: the log.  A line is printed exactly when the answer is the "invalid
    input" error, and the line is ["API Error: "] followed by the text of an
    exception of the [except] clause, raised by the [try] block. *)
Theorem X14_calculate_prints_on_invalid_input (data : json) :
  (snd (calculate data) <> []
   <-> fst (calculate data) = Returns invalid_input)
  /\ (forall line, In line (snd (calculate data)) ->
        exists e, compute data = Raises e /\ caught e = true
                  /\ line = lit "API Error: " ++ str e).
Proof.
  unfold calculate.
  assert (N : forall resp, compute data = Returns resp ->
                           resp <> invalid_input).
  { intros resp C. rewrite compute_operands in C.
    destruct (operands data) as [[x y]|e]; simpl in C; [|discriminate].
    destruct (subscript data "operation") as [o|e]; simpl in C;
      [|discriminate].
    revert C. branches; intro C; inversion C; discriminate. }
  destruct (compute data) as [resp|e] eqn:C.
  - split; [split|].
    + intro H. exfalso. apply H. reflexivity.
    + simpl. intro H. inversion H. exfalso. apply (N resp eq_refl). auto.
    + intros line [].
  - destruct (caught e) eqn:K; simpl.
    + split; [split; [reflexivity|discriminate]|].
      intros line [<-|[]]. exists e. auto.
    + split; [split; [intro H; exfalso; apply H; reflexivity|discriminate]|].
      intros line [].
Qed.

End CalculatorProperties.

(** ** Properties of the keypad script *)

Section KeypadProperties.

Import Keypad.

Lemma forallb_tl (f : char -> bool) l :
  forallb f l = true -> forallb f (tl l) = true.
Proof.
  destruct l; simpl; auto. intro H. apply andb_prop in H. tauto.
Qed.

Lemma forallb_removelast (f : char -> bool) l :
  forallb f l = true -> forallb f (removelast l) = true.
Proof.
  intro H. apply forallb_forall. intros c I.
  apply (proj1 (forallb_forall _ _) H), in_removelast, I.
Qed.

Lemma refresh_in_sync e st :
  forallb keypad_char e = true -> in_sync (refreshDisplay (assign e st)).
Proof. intro H. split; [exact H|reflexivity]. Qed.

Lemma press_in_sync val st :
  forallb keypad_char (expr st) = true ->
  val = lit "C" \/ val = lit "+/-" \/ forallb keypad_char val = true ->
  in_sync (press val st).
Proof.
  intros E V. unfold press.
  destruct (pystr_eqb val (lit "C")) eqn:C; [now apply refresh_in_sync|].
  destruct (pystr_eqb val (lit "+/-")) eqn:T.
  - destruct (Str.startswith (expr st) (lit "-")); apply refresh_in_sync.
    + now apply forallb_tl.
    + simpl. exact E.
  - apply refresh_in_sync. rewrite forallb_app, E. simpl.
    destruct V as [->|[->|V]]; [discriminate C|discriminate T|exact V].
Qed.

Lemma typed_key_chars k : is_typed_key k = true -> forallb keypad_char k = true.
Proof.
  unfold is_typed_key. intro H.
  repeat (apply orb_prop in H; destruct H as [H|H]);
    try (apply pystr_eqb_eq in H; subst; reflexivity).
  destruct k as [|c [|d k]]; try discriminate. simpl in *.
  unfold keypad_char. rewrite H. reflexivity.
Qed.

Lemma button_chars val :
  In val buttons ->
  val = lit "C" \/ val = lit "+/-" \/ forallb keypad_char val = true.
Proof.
  intro I. simpl in I.
  repeat (destruct I as [<-|I]; [auto|]); try contradiction.
Qed.

Lemma step_in_sync st ev : valid ev -> in_sync st -> in_sync (step st ev).
Proof.
  intros V [E D]. destruct ev as [val|k]; simpl.
  - apply press_in_sync; [exact E|apply button_chars, V].
  - unfold keydown.
    destruct (is_typed_key k) eqn:T.
    { apply press_in_sync; [exact E|]. right. right.
      apply typed_key_chars, T. }
    destruct (pystr_eqb k (lit "Enter")); [split; assumption|].
    destruct (pystr_eqb k (lit "Backspace")).
    { apply refresh_in_sync, forallb_removelast, E. }
    destruct (pystr_eqb k (lit "c") || pystr_eqb k (lit "C")).
    { apply press_in_sync; auto. }
    split; assumption.
Qed.

(** X15: the invariant of the page.  After any clicks on the buttons that
    call [press] and any keys, starting from the page as loaded and as long
    as no answer of the server is written back, [expr] holds only digits and
    the characters [+ - * / % .], the display shows [expr] (or [0] when it
    is empty), and the server's replacement of [×] and [÷] leaves [expr] as
    it is: the buttons labelled [×] and [÷] send [*] and [/]. *)
Theorem X15_keypad_invariant (events : list event) :
  Forall valid events ->
  let st := fold_left step events initial in
  forallb keypad_char (expr st) = true
  /\ textContent st = match expr st with [] => lit "0" | _ => expr st end
  /\ replaced (expr st) = expr st.
Proof.
  intros V st.
  assert (I : in_sync st).
  { subst st.
    assert (G : forall evs s, Forall valid evs -> in_sync s ->
                              in_sync (fold_left step evs s)).
    { induction evs as [|ev evs IH]; intros s F S; simpl; auto.
      inversion F; subst. apply IH; auto. now apply step_in_sync. }
    apply G; [exact V|]. split; reflexivity. }
  destruct I as [E D]. split; [exact E|]. split; [exact D|].
  assert (A : forall c, c = times_sign \/ c = division_sign ->
                        ~ In c (expr st)).
  { intros c C J. pose proof (proj1 (forallb_forall _ _) E c J) as K.
    destruct C as [->| ->]; vm_compute in K; discriminate. }
  unfold replaced. rewrite (replace_absent _ times_sign); auto.
  apply replace_absent; auto.
Qed.

Lemma expr_press_sign st :
  expr (press (lit "+/-") st) = toggle_sign (expr st).
Proof.
  destruct st as [e t]. unfold press.
  change (pystr_eqb (lit "+/-") (lit "C")) with false.
  change (pystr_eqb (lit "+/-") (lit "+/-")) with true. cbv iota.
  simpl expr. destruct e as [|c rest]; [reflexivity|].
  change (Str.startswith (c :: rest) (lit "-"))
    with (N.eqb 45 c && Str.startswith rest []).
  rewrite startswith_nil, andb_true_r. unfold toggle_sign.
  destruct (N.eqb 45 c); reflexivity.
Qed.

(** X16: the sign button.  Pressing [+/-] twice gives back the expression,
    unless the expression begins with two minus signs, of which both
    presses remove one. *)
Theorem X16_sign_button_twice (st : state) :
  expr (press (lit "+/-") (press (lit "+/-") st)) = expr st
  <-> Str.startswith (expr st) (lit "--") = false.
Proof.
  rewrite !expr_press_sign. destruct (expr st) as [|c rest].
  - split; reflexivity.
  - destruct rest as [|d rest].
    + change (Str.startswith [c] (lit "--")) with (N.eqb 45 c && false).
      rewrite andb_false_r. unfold toggle_sign at 2.
      destruct (N.eqb 45 c) eqn:C.
      * apply N.eqb_eq in C. subst c. split; reflexivity.
      * unfold toggle_sign. rewrite N.eqb_refl. split; reflexivity.
    + change (Str.startswith (c :: d :: rest) (lit "--"))
        with (N.eqb 45 c && (N.eqb 45 d && Str.startswith rest [])).
      rewrite startswith_nil, andb_true_r. unfold toggle_sign at 2.
      destruct (N.eqb 45 c) eqn:C.
      * unfold toggle_sign. destruct (N.eqb 45 d) eqn:D; simpl andb.
        -- split; [|discriminate]. intro H.
           apply (f_equal (@List.length char)) in H. simpl in H. lia.
        -- apply N.eqb_eq in C. subst c. split; reflexivity.
      * unfold toggle_sign. rewrite N.eqb_refl. split; reflexivity.
Qed.

(** X17: [Backspace] undoes a key.  After a digit or one of [+ - * / % .]
    typed on the keyboard, [Backspace] gives back the expression, and the
    display too when it was showing the expression. *)
Theorem X17_backspace_undoes_a_key (k : pystr) (st : state) :
  is_typed_key k = true ->
  expr (keydown (lit "Backspace") (keydown k st)) = expr st
  /\ (textContent st = match expr st with [] => lit "0" | _ => expr st end ->
      keydown (lit "Backspace") (keydown k st) = st).
Proof.
  intro T.
  assert (K : exists c, k = [c] /\ pystr_eqb k (lit "C") = false
                        /\ pystr_eqb k (lit "+/-") = false).
  { unfold is_typed_key in T.
    repeat (apply orb_prop in T; destruct T as [T|T]);
      try (apply pystr_eqb_eq in T; subst; eexists; repeat split; reflexivity).
    destruct k as [|c [|d k]]; try discriminate. exists c.
    split; [reflexivity|]. simpl in T. unfold pystr_eqb.
    split; destruct (list_eq_dec N.eq_dec _ _) as [Q|Q]; auto;
      inversion Q; subst; discriminate. }
  destruct K as [c [-> [NC NT]]].
  assert (P : keydown [c] st = refreshDisplay (assign (expr st ++ [c]) st)).
  { unfold keydown. rewrite T. unfold press. rewrite NC, NT. reflexivity. }
  assert (B : forall s',
    keydown (lit "Backspace") s'
    = refreshDisplay (assign (removelast (expr s')) s')) by reflexivity.
  rewrite B, P. simpl expr. rewrite removelast_last.
  split; [reflexivity|]. intro D.
  destruct st as [e t]. unfold refreshDisplay, assign. simpl in *.
  now rewrite D.
Qed.

End KeypadProperties.

(** ** Quotients of integers *)

Section ExactQuotients.






























End ExactQuotients.

(** ** The reference parser on expressions of two and three numbers *)

Section ReferenceParser.

Import Reference.

Lemma is_digit_cases d :
  is_digit d = true ->
  In d [48; 49; 50; 51; 52; 53; 54; 55; 56; 57]%N.
Proof.
  unfold is_digit. intro H. apply andb_prop in H. destruct H as [L U].
  apply N.leb_le in L, U. simpl.
  assert (C : (d = 48 \/ d = 49 \/ d = 50 \/ d = 51 \/ d = 52 \/ d = 53
               \/ d = 54 \/ d = 55 \/ d = 56 \/ d = 57)%N) by lia.
  intuition auto.
Qed.

Lemma delimiter_not_digit c : In c delimiters -> is_digit c = false.
Proof. intro H. repeat (destruct H as [<-|H]; [reflexivity|]). destruct H. Qed.

Lemma span_digits a rest :
  forallb is_digit a = true -> delimited rest ->
  span is_digit (a ++ rest) = (a, rest).
Proof.
  intros D R. induction a as [|d a IH]; simpl.
  - destruct rest as [|c rest]; [reflexivity|].
    simpl in R. repeat (destruct R as [<-|R]; [reflexivity|]). destruct R.
  - simpl in D. apply andb_prop in D. destruct D as [Dd Da].
    rewrite Dd, (IH Da). reflexivity.
Qed.

Local Arguments digits_value : simpl never.

Lemma lex_number_int a rest :
  int_literal a = true -> delimited rest ->
  lex_number (a ++ rest) = Some (VInt (digits_value a), rest).
Proof.
  intros L R. unfold int_literal in L. apply andb_prop in L.
  destruct L as [D Z]. unfold lex_number. rewrite (span_digits a rest D R).
  destruct a as [|d a]; [discriminate|].
  simpl in D. apply andb_prop in D. destruct D as [Dd Da].
  assert (LZ : match d :: a with
               | 48%N :: _ :: _ => negb (digits_value (d :: a) =? 0)
               | _ => false
               end = false).
  { apply is_digit_cases in Dd.
    repeat (destruct Dd as [<-|Dd]; [try reflexivity|]); [|destruct Dd].
    destruct a; [reflexivity|]. rewrite Z. reflexivity. }
  destruct rest as [|c rest].
  - cbn -[digits_value]. rewrite LZ. reflexivity.
  - simpl in R.
    repeat (destruct R as [<-|R];
            [cbn -[digits_value]; rewrite LZ; reflexivity|]).
    destruct R.
Qed.


Lemma tokenize_nil f : tokenize f [] = Some [].
Proof. destruct f; reflexivity. Qed.

Lemma tokenize_int f a rest :
  int_literal a = true -> delimited rest ->
  tokenize (S f) (a ++ rest) =
  consed (TNum (VInt (digits_value a))) (tokenize f rest).
Proof.
  intros L R. pose proof (lex_number_int a rest L R) as X.
  unfold int_literal in L. apply andb_prop in L. destruct L as [D Z].
  destruct a as [|d a]; [discriminate Z|].
  simpl in D. apply andb_prop in D. destruct D as [Dd _].
  assert (E : forall s, tokenize (S f) (d :: s) =
    match lex_number (d :: s) with
    | Some (v, rest') => consed (TNum v) (tokenize f rest')
    | None => None
    end).
  { intro s. apply is_digit_cases in Dd.
    repeat (destruct Dd as [<-|Dd]; [reflexivity|]). destruct Dd. }
  change ((d :: a) ++ rest) with (d :: (a ++ rest)) in *.
  rewrite E, X. reflexivity.
Qed.

Lemma tokenize_symbol f o rest :
  binary_allowed o = true -> operand_start rest ->
  tokenize (S f) (symbol o ++ rest) = consed (token_of o) (tokenize f rest).
Proof.
  intros A R. destruct rest as [|c rest]; [destruct R|]. simpl in R.
  assert (C : In c [40; 48; 49; 50; 51; 52; 53; 54; 55; 56; 57]%N).
  { destruct R as [R| ->]; [right; apply (is_digit_cases c R)|left; reflexivity]. }
  destruct o; try discriminate;
    repeat (destruct C as [<-|C]; [reflexivity|]); destruct C.
Qed.



Lemma int_literal_start a rest : int_literal a = true -> operand_start (a ++ rest).
Proof.
  unfold int_literal. intro L. apply andb_prop in L. destruct L as [D Z].
  destruct a as [|d a]; [discriminate Z|]. simpl in D.
  apply andb_prop in D. left. tauto.
Qed.

Lemma symbol_delimited o rest : binary_allowed o = true -> delimited (symbol o ++ rest).
Proof. destruct o; try discriminate; intros _; simpl; tauto. Qed.

Lemma int_literal_length a : int_literal a = true -> (1 <= List.length a)%nat.
Proof. destruct a; [discriminate|simpl; lia]. Qed.


Lemma symbol_length o : binary_allowed o = true -> (1 <= List.length (symbol o))%nat.
Proof. destruct o; try discriminate; intros _; simpl; lia. Qed.



Lemma tokenize_two f a o b :
  (3 <= f)%nat ->
  int_literal a = true -> int_literal b = true -> binary_allowed o = true ->
  tokenize f (a ++ symbol o ++ b) =
  Some [TNum (VInt (digits_value a)); token_of o;
        TNum (VInt (digits_value b))].
Proof.
  intros F La Lb A.
  do 3 (destruct f as [|f]; [lia|]).
  rewrite <- (app_nil_r b) at 1.
  rewrite (tokenize_int _ a _ La (symbol_delimited o _ A)).
  rewrite (tokenize_symbol _ o _ A (int_literal_start b [] Lb)).
  rewrite (tokenize_int _ b [] Lb I), tokenize_nil. reflexivity.
Qed.

Lemma parse_two a o b :
  int_literal a = true -> int_literal b = true -> binary_allowed o = true ->
  parse (a ++ symbol o ++ b) =
  Returns (Expression (BinOp (Num (VInt (digits_value a))) o
                         (Num (VInt (digits_value b))))).
Proof.
  intros La Lb A. unfold parse.
  rewrite (tokenize_two _ a o b); auto.
  - destruct o; try discriminate; reflexivity.
  - pose proof (int_literal_length _ La). pose proof (int_literal_length _ Lb).
    pose proof (symbol_length _ A). rewrite !length_app. lia.
Qed.



End ReferenceParser.

(** ** Arithmetic as it is written *)






(** ** The properties on the reference instance *)

Import Examples.

(** The theorem of C1 on [__import__('os')], whose tree is a call. *)
Lemma C1_witness :
  ast_parse (lit "__import__('os')") = Returns import_os
  /\ has_disallowed import_os = true
  /\ (exists e,
        outcome (safe_eval (lit "__import__('os')")) g0 = Raises e
        /\ ((exists cls, e = unsupported_expression cls)
            \/ (exists sub, subexpr sub import_os
                  /\ has_disallowed sub = false
                  /\ outcome (_eval sub) g0 = Raises e))
        /\ (forall input, clean input = lit "__import__('os')" ->
              evaluate (request input) g0 = (Returns (Failure (str e)), g0)))
  /\ (same_outside import_os (Expression (Other (lit "ast.Call") [])) ->
      _eval (Expression (Other (lit "ast.Call") [])) g0 = _eval import_os g0).
Proof.
  split; [reflexivity|]. split; [reflexivity|].
  destruct (@C1_disallowed_nodes_fail Reference.runtime g0
              (lit "__import__('os')") import_os
              (Expression (Other (lit "ast.Call") []))) as [A B].
  split; [apply A; reflexivity|exact B].
Defined.

(** C1 as stated fails on [1/0+x]: the parser accepts the input, its tree
    has a name, and the evaluation raises the [ZeroDivisionError] of the left
    operand, which is neither an error of the parser nor the "unsupported
    expression" error. *)
Lemma C1_counterexample :
  ast_parse (lit "1/0+x") = Returns one_by_zero_plus_x
  /\ has_disallowed one_by_zero_plus_x = true
  /\ eval_string (lit "1/0+x") =
       Raises (Exn ZeroDivisionError (lit "division by zero"))
  /\ ~ (exists e, eval_string (lit "1/0+x") = Raises e
          /\ (ast_parse (lit "1/0+x") = Raises e
              \/ exists cls, e = unsupported_expression cls)).
Proof.
  split; [reflexivity|]. split; [reflexivity|]. split; [reflexivity|].
  intros [e [E [P|[cls U]]]].
  - discriminate P.
  - subst e. vm_compute in E. discriminate E.
Qed.

(** The theorem of C2 on the operation [10/0]. *)
Lemma C2_witness :
  divides_by_zero ten_by_zero
  /\ exists e, outcome (_eval ten_by_zero) g0 = Raises e
       /\ exn_class_of e = ZeroDivisionError
       /\ (forall s, ast_parse (clean s) = Returns ten_by_zero ->
             evaluate (request s) g0 = (Returns (Failure (str e)), g0)).
Proof.
  assert (D : @divides_by_zero Reference.runtime ten_by_zero).
  { apply (dz_here _ Div _ (VInt 10) (VInt 0));
      [left; reflexivity | reflexivity | reflexivity
      | split; [reflexivity | exact I]]. }
  split; [exact D|].
  apply (@C2_division_by_zero Reference.runtime ten_by_zero D).
Defined.

(** C2 as stated fails on [10**400/0.0]: the operands evaluate to the integer
    10^400 and to the float zero, and the division raises the
    [OverflowError] of converting the dividend, not a division by zero. *)
Lemma C2_counterexample :
  ast_parse (lit "10**400/0.0") = Returns huge_by_zero
  /\ outcome (_eval (BinOp (Num (VInt 10)) Pow (Num (VInt 400)))) g0 =
       Returns (VInt (10 ^ 400))
  /\ outcome (_eval (Num (VFloat fzero))) g0 = Returns (VFloat fzero)
  /\ real_zero (VFloat fzero) = true
  /\ eval_string (lit "10**400/0.0") =
       Raises (Exn OverflowError (lit "int too large to convert to float"))
  /\ run (lit "10**400/0.0") =
       Returns (Failure (lit "int too large to convert to float"))
  /\ ~ (exists e, eval_string (lit "10**400/0.0") = Raises e
          /\ exn_class_of e = ZeroDivisionError).
Proof.
  repeat (split; [vm_compute; reflexivity|]).
  intros [e [E C]]. vm_compute in E. injection E as <-. discriminate C.
Qed.



(** The theorem of C4 on [2+3], on [2@3], on [10/0+x], on [1+x], on [-2]
    and on [~2]. *)
Lemma C4_witness :
  let two := Num (VInt 2) in
  let three := Num (VInt 3) in
  outcome (_eval ten_by_zero) g0 =
    Raises (Exn ZeroDivisionError (lit "division by zero"))
  /\ outcome (_eval name) g0 = Raises (unsupported_expression (lit "ast.Name"))
  /\ outcome (_eval (BinOp two Add three)) g0 = Returns (VInt 5)
  /\ outcome (_eval (BinOp two MatMult three)) g0 =
       Raises (Exn ValueError
                 (lit "Operator <class 'ast.MatMult'> not allowed"))
  /\ outcome (_eval (BinOp ten_by_zero Add name)) g0 =
       Raises (Exn ZeroDivisionError (lit "division by zero"))
  /\ outcome (_eval (BinOp two Add name)) g0 =
       Raises (unsupported_expression (lit "ast.Name"))
  /\ outcome (_eval (UnaryOp USub two)) g0 = Returns (VInt (-2))
  /\ outcome (_eval (UnaryOp Invert two)) g0 =
       Raises (Exn ValueError
                 (lit "Unary operator <class 'ast.Invert'> not allowed")).
Proof.
  intros two three.
  pose (zero := Exn ZeroDivisionError (lit "division by zero")).
  pose (unsupported := @unsupported_expression (lit "ast.Name")).
  split; [reflexivity|]. split; [reflexivity|].
  split.
  { destruct (@C4_operands_then_lookup Reference.runtime g0 two three two Add
                (VInt 2) (VInt 3) zero) as [_ [_ [A _]]].
    apply (proj2 (A eq_refl eq_refl) op.add eq_refl). }
  split.
  { destruct (@C4_operands_then_lookup Reference.runtime g0 two three two
                MatMult (VInt 2) (VInt 3) zero) as [_ [_ [A _]]].
    apply (proj1 (A eq_refl eq_refl) eq_refl). }
  split.
  { destruct (@C4_operands_then_lookup Reference.runtime g0 ten_by_zero name
                two Add (VInt 2) (VInt 3) zero) as [A _].
    apply (A eq_refl). }
  split.
  { destruct (@C4_operands_then_lookup Reference.runtime g0 two name two Add
                (VInt 2) (VInt 3) unsupported) as [_ [A _]].
    apply (A eq_refl eq_refl). }
  split.
  { destruct (@C4_operands_then_lookup Reference.runtime g0 two three two USub
                (VInt 2) (VInt 3) zero) as [_ [_ [_ [_ [A _]]]]].
    apply (proj2 (A eq_refl) op.neg eq_refl). }
  destruct (@C4_operands_then_lookup Reference.runtime g0 two three two Invert
              (VInt 2) (VInt 3) zero) as [_ [_ [_ [_ [A _]]]]].
  apply (proj1 (A eq_refl) eq_refl).
Defined.

(** The theorem of C5 on [ 12.5 %], on [7×6] and on [50%]. *)
Lemma C5_witness :
  Str.isdigit unicode_isdigit
    (Str.replace (Str.strip (lit " 12.5 ")) 46%N [] (Some 1%nat)) = true
  /\ Str.endswith seven_times_six (lit "%") = false
  /\ ast_parse (lit "(50)/100") =
       Returns (Expression (BinOp (Num (VInt 50)) Div (Num (VInt 100))))
  /\ clean (lit " 12.5 " ++ lit "%") = lit "(" ++ lit " 12.5 " ++ lit ")/100"
  /\ clean seven_times_six =
       Str.replace (Str.replace seven_times_six times_sign (lit "*") None)
                   division_sign (lit "/") None
  /\ float_exact one_half = Some (1 # 2)%Q
  /\ run (lit "50%") = Returns (Success (VFloat one_half) (lit "50%")).
Proof.
  split; [reflexivity|]. split; [reflexivity|]. split; [reflexivity|].
  destruct (@C5_percent_rewriting Reference.runtime (lit " 12.5 ")
              seven_times_six) as [A [B [C D]]].
  split; [apply A; reflexivity|]. split; [apply B; reflexivity|].
  split; [exact C|apply D; reflexivity].
Defined.

(** C5 as stated fails on [50% ], with a space after the sign: its trimmed
    form is [50%], yet it is passed on as it is and fails to parse. *)
Lemma C5_counterexample :
  percent_form (lit "50% ") = true
  /\ clean (lit "50% ") = lit "50% "
  /\ run (lit "50% ") = Returns (Failure (str Reference.invalid_syntax))
  /\ ~ (exists n, clean (lit "50% ") = lit "(" ++ n ++ lit ")/100").
Proof.
  repeat (split; [vm_compute; reflexivity|]).
  intros [n E]. vm_compute in E. discriminate E.
Qed.

(** The theorem of C6 on the request [{"expr": "10/0"}]. *)
Lemma C6_witness :
  lookup [(lit "expr", JStr (lit "10/0"))] (lit "expr")
    = Some (JStr (lit "10/0"))
  /\ (exists resp, evaluate (request (lit "10/0")) g0 = (Returns resp, g0))
  /\ (forall e, outcome (safe_eval (clean (lit "10/0"))) g0 = Raises e ->
        evaluate (request (lit "10/0")) g0 = (Returns (Failure (str e)), g0)).
Proof.
  split; [reflexivity|].
  destruct (@C6_failures_are_returned Reference.runtime g0
              [(lit "expr", JStr (lit "10/0"))] (lit "10/0")) as [A B].
  split; [exact A|apply B; reflexivity].
Defined.

(** The theorem of C8 on [1+1] and on [1j]. *)
Lemma C8_witness :
  run (lit "1+1") = Returns (Success (VInt 2) (lit "1+1"))
  /\ eval_string (clean (lit "1j")) = Returns (VComplex fzero one)
  /\ is_int_or_float (VInt 2) = true
  /\ run (lit "1j") =
     Returns (Failure (lit "Object of type complex is not JSON serializable")).
Proof.
  split; [reflexivity|]. split; [reflexivity|].
  destruct (@C8_success_is_int_or_float Reference.runtime g0
              (request (lit "1+1")) (lit "1j") (VInt 2) (lit "1+1")
              fzero one) as [A B].
  split; [apply A|apply B]; reflexivity.
Defined.

(** C8 as stated fails on [1j]: the parser gives a number node that holds a
    complex, and the evaluator returns it. *)
Lemma C8_counterexample :
  ast_parse (lit "1j") = Returns (Expression (Num (VComplex fzero one)))
  /\ eval_string (lit "1j") = Returns (VComplex fzero one)
  /\ ~ (forall v, eval_string (lit "1j") = Returns v ->
          is_int_or_float v = true).
Proof.
  split; [reflexivity|]. split; [reflexivity|].
  intro H. specialize (H (VComplex fzero one) eq_refl). discriminate H.
Qed.



(** The theorem of C10 on the requests whose bodies are [null], [{}] and
    the object whose ["expr"] is the empty string, and on the request
    without a body. *)
Lemma C10_witness :
  let syntax := Reference.invalid_syntax in
  let no_media_type := Werkzeug.unsupported_media_type in
  let empty := lit "{" ++ Werkzeug.quoted "expr" ++ lit ": "
               ++ [34%N; 34%N] ++ lit "}" in
  ast_parse [] = Raises syntax
  /\ get_json (Werkzeug.post (lit "null")) = Returns JNull
  /\ get_json (Werkzeug.post (lit "{}")) = Returns (JDict [])
  /\ get_json (Werkzeug.post empty) = Returns (JDict [(lit "expr", JStr [])])
  /\ get_json Werkzeug.no_body = Raises no_media_type
  /\ route_eval (Werkzeug.post (lit "null")) g0 =
       (Returns (Failure (str syntax)), g0)
  /\ route_eval (Werkzeug.post (lit "{}")) g0 =
       (Returns (Failure (str syntax)), g0)
  /\ route_eval (Werkzeug.post empty) g0 =
       (Returns (Failure (str syntax)), g0)
  /\ route_eval Werkzeug.no_body g0 = (Raises no_media_type, g0).
Proof.
  intros syntax no_media_type empty.
  split; [reflexivity|]. split; [reflexivity|]. split; [reflexivity|].
  split; [reflexivity|]. split; [reflexivity|].
  split.
  { apply (proj2 (@C10_empty_expression Reference.runtime Werkzeug.framework
                    g0 (Werkzeug.post (lit "null")) syntax JNull));
      [reflexivity|reflexivity|left; reflexivity]. }
  split.
  { apply (proj2 (@C10_empty_expression Reference.runtime Werkzeug.framework
                    g0 (Werkzeug.post (lit "{}")) syntax (JDict [])));
      [reflexivity|reflexivity|].
    right. exists []. split; [reflexivity|left; reflexivity]. }
  split.
  { apply (proj2 (@C10_empty_expression Reference.runtime Werkzeug.framework
                    g0 (Werkzeug.post empty) syntax
                    (JDict [(lit "expr", JStr [])])));
      [reflexivity|reflexivity|].
    right. eexists. split; [reflexivity|right; reflexivity]. }
  apply (proj1 (@C10_empty_expression Reference.runtime Werkzeug.framework
                  g0 Werkzeug.no_body no_media_type JNull)).
  reflexivity.
Defined.

(** C10 as stated fails on a request without a body: [request.get_json()]
    raises the error 415 when the request declares no JSON content, and the
    error 400 when it does; the exception leaves the view function, which
    returns no failure response. *)
Lemma C10_counterexample :
  get_data Werkzeug.no_body = []
  /\ get_data Werkzeug.no_body_json = []
  /\ outcome (route_eval Werkzeug.no_body) g0 =
       Raises Werkzeug.unsupported_media_type
  /\ outcome (route_eval Werkzeug.no_body_json) g0 =
       Raises Werkzeug.bad_request
  /\ ~ (exists error,
          outcome (route_eval Werkzeug.no_body) g0 = Returns (Failure error))
  /\ ~ (exists error,
          outcome (route_eval Werkzeug.no_body_json) g0 =
          Returns (Failure error)).
Proof.
  repeat (split; [reflexivity|]).
  split; intros [error E]; discriminate E.
Qed.

(** ** The further properties on examples *)

Import MoreExamples.

(** X1 on [2+3]. *)
Lemma X1_witness :
  outcome (_eval (BinOp (Num (VInt 2)) Add (Num (VInt 3)))) g0
    = Returns (VInt 5)
  /\ in_grammar (BinOp (Num (VInt 2)) Add (Num (VInt 3))) = true.
Proof.
  split; [reflexivity|].
  apply (@X1_success_only_inside_the_grammar Reference.runtime
           (BinOp (Num (VInt 2)) Add (Num (VInt 3))) (VInt 5)).
  reflexivity.
Defined.

(** X2 on [7 % (2 - 2)], which has no value. *)
Lemma X2_witness :
  int_tree seven_mod_zero = true
  /\ math_value seven_mod_zero = None
  /\ outcome (_eval seven_mod_zero) g0 = Raises integer_modulo_by_zero.
Proof.
  split; [reflexivity|]. split; [reflexivity|].
  apply (@X2_integer_trees_return_or_divide_by_zero Reference.runtime
           seven_mod_zero).
  reflexivity.
Defined.

(** X3 on [4/2], which is the float 2.0. *)
Lemma X3_witness :
  outcome (_eval (Num (VInt 4))) g0 = Returns (VInt 4)
  /\ outcome (_eval (Num (VInt 2))) g0 = Returns (VInt 2)
  /\ outcome (_eval (BinOp (Num (VInt 4)) Div (Num (VInt 2)))) g0
     = Returns (VFloat two)
  /\ exists x, VFloat two = VFloat x.
Proof.
  split; [reflexivity|]. split; [reflexivity|]. split; [reflexivity|].
  apply (@X3_true_division_returns_a_float Reference.runtime
           (Num (VInt 4)) (Num (VInt 2)) (VInt 4) (VInt 2) (VFloat two));
    reflexivity.
Defined.

(** X5 on [-7 % 3], which is 2. *)
Lemma X5_witness :
  3 <> 0
  /\ exists m q,
       outcome (_eval (BinOp (Num (VInt (-7))) Mod (Num (VInt 3)))) g0
         = Returns (VInt m)
       /\ -7 = 3 * q + m
       /\ (0 <= m < 3 \/ 3 < m <= 0).
Proof.
  split; [discriminate|].
  apply (@X5_integer_modulo_takes_the_sign_of_the_divisor Reference.runtime
           (Num (VInt (-7))) (Num (VInt 3)) (-7) 3);
    [reflexivity|reflexivity|discriminate].
Defined.

(** X6 on [1] and [0.5]. *)
Lemma X6_witness :
  outcome (_eval (BinOp (Num (VInt 1)) Add (Num (VFloat one_half)))) g0
    = outcome (_eval (BinOp (Num (VFloat one_half)) Add (Num (VInt 1)))) g0
  /\ outcome (_eval (BinOp (Num (VInt 1)) Mult (Num (VFloat one_half)))) g0
     = outcome (_eval (BinOp (Num (VFloat one_half)) Mult (Num (VInt 1)))) g0.
Proof.
  apply (@X6_addition_and_multiplication_commute Reference.runtime
           (Num (VInt 1)) (Num (VFloat one_half)) (VInt 1) (VFloat one_half));
    reflexivity.
Defined.

(** X8 on [50%]. *)
Lemma X8_witness :
  clean (lit "50%") <> replaced (lit "50%")
  /\ exists p,
       lit "50%" = p ++ lit "%"
       /\ Str.isdigit unicode_isdigit
            (Str.replace (Str.strip p) 46%N [] (Some 1%nat)) = true
       /\ (forall c, In c p ->
             Str.isspace c = true \/ c = 46%N
             \/ Str.isdigit_char unicode_isdigit c = true)
       /\ clean (lit "50%") = lit "(" ++ p ++ lit ")/100".
Proof.
  assert (N : @clean Reference.runtime (lit "50%") <> replaced (lit "50%"))
    by (vm_compute; discriminate).
  split; [exact N|].
  apply (@X8_only_numbers_are_rewritten Reference.runtime (lit "50%") N).
Defined.

(** X9 on the request for [50%], which echoes [50%]. *)
Lemma X9_witness :
  run (lit "50%") = Returns (Success (VFloat one_half) (lit "50%"))
  /\ get (request (lit "50%")) (lit "expr") (JStr [])
     = Returns (JStr (lit "50%"))
  /\ eval_string (clean (lit "50%")) = Returns (VFloat one_half).
Proof.
  split; [reflexivity|].
  apply (@X9_success_echoes_the_input Reference.runtime g0
           (request (lit "50%")) (VFloat one_half) (lit "50%")).
  reflexivity.
Defined.

(** X10 on a request without a body and on one whose body is the array
    [[1]]. *)
Lemma X10_witness :
  let no_get := no_attribute (JList [JInt 1]) "get" in
  get_json Werkzeug.no_body = Raises Werkzeug.unsupported_media_type
  /\ get_json (Werkzeug.post (lit "[1]")) = Returns (JList [JInt 1])
  /\ str no_get = lit "'list' object has no attribute 'get'"
  /\ outcome (route_eval Werkzeug.no_body) g0 =
       Raises Werkzeug.unsupported_media_type
  /\ outcome (route_eval (Werkzeug.post (lit "[1]"))) g0 = Raises no_get.
Proof.
  intro no_get.
  split; [reflexivity|]. split; [reflexivity|]. split; [reflexivity|].
  split.
  - apply (proj2 (@X10_escaping_exceptions Reference.runtime
                    Werkzeug.framework g0 Werkzeug.no_body
                    Werkzeug.unsupported_media_type)).
    left. reflexivity.
  - apply (proj2 (@X10_escaping_exceptions Reference.runtime
                    Werkzeug.framework g0 (Werkzeug.post (lit "[1]"))
                    no_get)).
    right. exists (JList [JInt 1]).
    split; [reflexivity|]. split; [reflexivity|].
    split; [discriminate|reflexivity].
Defined.

(** X12 on a request without a body, on one whose body is not JSON and on
    one whose first number is the integer 10^400. *)
Lemma X12_witness :
  let overflow :=
    Exn OverflowError (lit "int too large to convert to float") in
  let huge :=
    Werkzeug.post
      (lit "{" ++ Werkzeug.quoted "num1" ++ lit ": 1"
       ++ List.repeat 48%N 400 ++ lit ", " ++ Werkzeug.quoted "num2"
       ++ lit ": 1, " ++ Werkzeug.quoted "operation" ++ lit ": "
       ++ Werkzeug.quoted "add" ++ lit "}") in
  get_json Werkzeug.no_body = Raises Werkzeug.unsupported_media_type
  /\ get_json (Werkzeug.post (lit "{")) = Raises Werkzeug.bad_request
  /\ get_json huge = Returns (api_request (JInt (10 ^ 400)) (JInt 1) "add")
  /\ float_of_int (10 ^ 400) = Raises overflow
  /\ Calculator.route_calculate Werkzeug.no_body =
       (Raises Werkzeug.unsupported_media_type, [])
  /\ Calculator.route_calculate (Werkzeug.post (lit "{")) =
       (Raises Werkzeug.bad_request, [])
  /\ Calculator.route_calculate huge = (Raises overflow, []).
Proof.
  intros overflow huge.
  assert (G : get_json huge
              = Returns (api_request (JInt (10 ^ 400)) (JInt 1) "add"))
    by (vm_compute; reflexivity).
  assert (F : float_of_int (10 ^ 400) = Raises overflow)
    by (vm_compute; reflexivity).
  split; [reflexivity|]. split; [reflexivity|]. split; [exact G|].
  split; [exact F|].
  split.
  { destruct (@X12_calculate_escaping_exceptions conversions
                Werkzeug.framework Werkzeug.no_body
                Werkzeug.unsupported_media_type) as [_ [_ [A _]]].
    apply A; [reflexivity|right; reflexivity]. }
  split.
  { destruct (@X12_calculate_escaping_exceptions conversions
                Werkzeug.framework (Werkzeug.post (lit "{"))
                Werkzeug.bad_request) as [_ [_ [A _]]].
    apply A; [reflexivity|left; reflexivity]. }
  destruct (@X12_calculate_escaping_exceptions conversions
              Werkzeug.framework huge overflow) as [_ [_ [_ A]]].
  apply (A _ (10 ^ 400) G); [reflexivity|exact F].
Defined.

(** X13 on the request for [6 / 3]. *)
Lemma X13_witness :
  let data := api_request (JInt 6) (JStr (lit "3")) "divide" in
  fst (Calculator.calculate data) = Returns (Calculator.Result two, 200)
  /\ 200 = 200
  /\ exists num1 num2,
       Calculator.operands data = Returns (num1, num2)
       /\ (two = SFadd prec emax num1 num2
           \/ two = SFsub prec emax num1 num2
           \/ two = SFmul prec emax num1 num2
           \/ (two = SFdiv prec emax num1 num2
               /\ float_is_zero num2 = false)).
Proof.
  intro data.
  assert (C : fst (Calculator.calculate data)
              = Returns (Calculator.Result two, 200))
    by (vm_compute; reflexivity).
  split; [exact C|].
  apply (@X13_calculate_responses conversions data (Calculator.Result two)
           200 C).
Defined.

(** X15 on a few clicks and keys. *)
Lemma X15_witness :
  Forall Keypad.valid typing
  /\ Keypad.expr (fold_left Keypad.step typing Keypad.initial) = lit "-7*"
  /\ forallb Keypad.keypad_char
       (Keypad.expr (fold_left Keypad.step typing Keypad.initial)) = true
  /\ Keypad.textContent (fold_left Keypad.step typing Keypad.initial)
     = lit "-7*"
  /\ replaced (lit "-7*") = lit "-7*".
Proof.
  assert (V : Forall Keypad.valid typing).
  { repeat constructor; simpl; tauto. }
  split; [exact V|]. split; [reflexivity|].
  apply (X15_keypad_invariant typing V).
Defined.

(** X17 on the key [7] in the page as loaded. *)
Lemma X17_witness :
  Keypad.is_typed_key (lit "7") = true
  /\ Keypad.expr (Keypad.keydown (lit "Backspace")
                    (Keypad.keydown (lit "7") Keypad.initial))
     = Keypad.expr Keypad.initial
  /\ (Keypad.textContent Keypad.initial = lit "0" ->
      Keypad.keydown (lit "Backspace")
        (Keypad.keydown (lit "7") Keypad.initial) = Keypad.initial).
Proof.
  split; [reflexivity|].
  apply (X17_backspace_undoes_a_key (lit "7") Keypad.initial). reflexivity.
Defined.
